(** * HealthVault: the session context and the authentication dialog

    A shallow embedding of [components/auth-provider.tsx] (the React
    context that wraps the remote [authService]) and of the [AuthModal]
    component (the two-step login / registration dialog), with the
    properties of its specification.

    Conventions of the embedding.
    - A JavaScript string is a [string]; the checks of the code only look at
      emptiness, length and the digit / non-digit class of its characters.
    - A JavaScript object used as a payload is a [gmap string JsValue].
    - [authService] ([@/lib/auth]) is a black box: a record of transition
      functions over a hidden backend state [B], each of which either
      returns a value or throws.
    - An [async] function is a computation in the monad [Eff]: it threads
      the mutable state and ends in a returned value or a thrown error, so
      that [try] / [catch] / [finally] are written as in the source.
    - An event handler runs from the state of its last render to its end in
      one piece: the values a handler reads through its closure are those of
      the state it starts from.
    - [localStorage.setItem], [console.error] and [toast] always succeed.
    - The emoji that ends some notification titles is left out. *)

From Stdlib Require Import ZArith String Ascii.
From stdpp Require Import gmap strings list pretty.

Local Open Scope string_scope.
Local Open Scope Z_scope.
Local Open Scope list_scope.

(** ** JavaScript values and results *)

(** [type UserRole = "patient" | "doctor"] *)
Inductive UserRole := Patient | Doctor.

Global Instance UserRole_eq_dec : EqDecision UserRole.
Proof. solve_decision. Defined.

(** The values found in the payloads the dialog builds. *)
Inductive JsValue :=
| JsString (s : string)
| JsNumber (n : Z).

Global Instance JsValue_eq_dec : EqDecision JsValue.
Proof. solve_decision. Defined.

(** A thrown value. *)
Inductive JsError := Error (msg : string).

(** Modelled from the spec: the type [AuthUser] of [@/lib/auth], whose
    declaration is not part of the sources; the code reads [id] and [role]. *)
Record AuthUser := {
  user_id : string;
  user_email : string;
  user_role : UserRole;
}.

(** The object a backend call resolves to:
    [{ success, message, user?, token? }]. *)
Record AuthResult := {
  success : bool;
  message : string;
  user : option AuthUser;
  token : option string;
}.

(** An object literal [{ success: false, message }]. *)
Definition failure (msg : string) : AuthResult :=
  {| success := false; message := msg; user := None; token := None |}.

(** Truthiness of a string: only the empty string is falsy. *)
Definition truthy (s : string) : bool :=
  match s with
  | EmptyString => false
  | String _ _ => true
  end.

(** ** The string operations the dialog uses *)

(** A character of the class [\d]. *)
Definition is_digit (c : ascii) : bool :=
  let n := Z.of_nat (nat_of_ascii c) in
  (48 <=? n) && (n <=? 57).

(** [s.replace(/\D/g, "")]: every character outside [\d] is removed. *)
Fixpoint strip_non_digits (s : string) : string :=
  match s with
  | EmptyString => EmptyString
  | String c r =>
      if is_digit c then String c (strip_non_digits r)
      else strip_non_digits r
  end.

(** [s.slice(0, n)] *)
Fixpoint slice_0 (n : nat) (s : string) : string :=
  match n, s with
  | S k, String c r => String c (slice_0 k r)
  | _, _ => EmptyString
  end.

(** The string consists of digits only. *)
Fixpoint all_digits (s : string) : bool :=
  match s with
  | EmptyString => true
  | String c r => is_digit c && all_digits r
  end.

(** "Exactly 6 digits". *)
Definition six_digits (s : string) : bool :=
  all_digits s && (String.length s =? 6)%nat.

(** White space skipped by [parseInt] (the ASCII part of it). *)
Definition is_white_space (c : ascii) : bool :=
  let n := Z.of_nat (nat_of_ascii c) in
  ((9 <=? n) && (n <=? 13)) || (n =? 32).

Fixpoint trim_start (s : string) : string :=
  match s with
  | EmptyString => EmptyString
  | String c r => if is_white_space c then trim_start r else s
  end.

(** The value of a character as a digit of the given radix. *)
Definition digit_value (radix : Z) (c : ascii) : option Z :=
  let n := Z.of_nat (nat_of_ascii c) in
  let v :=
    if (48 <=? n) && (n <=? 57) then Some (n - 48)
    else if (97 <=? n) && (n <=? 122) then Some (n - 87)
    else if (65 <=? n) && (n <=? 90) then Some (n - 55)
    else None in
  match v with
  | Some d => if d <? radix then Some d else None
  | None => None
  end.

(** The longest prefix of digits, read in the radix; [None] when there is
    no digit at all. *)
Fixpoint parse_digits (radix : Z) (acc : option Z) (s : string) : option Z :=
  match s with
  | EmptyString => acc
  | String c r =>
      match digit_value radix c with
      | Some d => parse_digits radix (Some (radix * default 0 acc + d)) r
      | None => acc
      end
  end.

(** [parseInt(s)] with no radix: leading white space, a sign, a [0x]
    prefix, then digits; [None] stands for [NaN]. The integer is kept
    exact (the rounding of a [Number] beyond 2^53 is not modelled). *)
Definition parseInt (s : string) : option Z :=
  let s1 := trim_start s in
  let '(sign, s2) :=
    match s1 with
    | String "-" r => (-1, r)
    | String "+" r => (1, r)
    | _ => (1, s1)
    end in
  let '(radix, s3) :=
    match s2 with
    | String "0" (String "x" r) => (16, r)
    | String "0" (String "X" r) => (16, r)
    | _ => (10, s2)
    end in
  Z.mul sign <$> parse_digits radix None s3.

(** [n || 0] on a number: [NaN] and [0] are falsy. *)
Definition or_zero (n : option Z) : Z := default 0 n.

(** ** Computations with state and exceptions *)

Inductive Outcome (A : Type) :=
| Returns (a : A)
| Throws (e : JsError).
Arguments Returns {A} a.
Arguments Throws {A} e.

Definition Eff (S A : Type) : Type := S → Outcome A * S.

Global Instance Eff_ret {S} : MRet (Eff S) :=
  λ A a s, (Returns a, s).

Global Instance Eff_bind {S} : MBind (Eff S) :=
  λ A C k c s,
    match c s with
    | (Returns a, s') => k a s'
    | (Throws e, s') => (Throws e, s')
    end.

Definition gets {S A} (f : S → A) : Eff S A := λ s, (Returns (f s), s).

Definition modify {S} (f : S → S) : Eff S unit := λ s, (Returns tt, f s).

(** [try { body } catch (error) { handler error }] *)
Definition try_catch {S A} (body : Eff S A) (handler : JsError → Eff S A)
  : Eff S A :=
  λ s,
    match body s with
    | (Returns a, s') => (Returns a, s')
    | (Throws e, s') => handler e s'
    end.

(** [try { body } finally { final }]: [final] runs on both exits; an error
    thrown by [final] replaces the completion of [body]. *)
Definition try_finally {S A} (body : Eff S A) (final : Eff S unit)
  : Eff S A :=
  λ s,
    match body s with
    | (r, s') =>
        match final s' with
        | (Returns _, s'') => (r, s'')
        | (Throws e, s'') => (Throws e, s'')
        end
    end.

(** What the computation completes with, and the state it leaves. *)
Definition result_of {S A} (c : Eff S A) (s : S) : Outcome A := fst (c s).

Definition state_after {S A} (c : Eff S A) (s : S) : S := snd (c s).

(** ** The auth backend *)

(** The calls made on [authService], with their arguments. *)
Inductive BackendCall :=
| GetCurrentUser
| RegisterUser (email fullName : string) (role : UserRole)
               (profile : gmap string JsValue)
| VerifyRegistration (email otp : string)
| SendOTP (email : string)
| VerifyOTPAndLogin (email otp : string)
| Logout
| UpdateProfile (userId : string) (updates : gmap string JsValue).

(** The messages written with [console.error]. *)
Inductive ConsoleEntry :=
| ConsoleError (label : string) (error : JsError).

Module AuthProvider.

Section WithBackend.

(** The hidden state of the backend. *)
Context {B : Type}.

(** Modelled from the spec: the interface of [authService] ([@/lib/auth],
    not part of the sources), with the methods and result shapes of the
    backend contract. Every method steps the backend state and settles its
    promise with a value or a rejection. *)
Record AuthService := {
  svc_getCurrentUser : B → Outcome (option AuthUser) * B;
  svc_registerUser :
    string → string → UserRole → gmap string JsValue →
    B → Outcome AuthResult * B;
  svc_verifyRegistration : string → string → B → Outcome AuthResult * B;
  svc_sendOTP : string → B → Outcome AuthResult * B;
  svc_verifyOTPAndLogin : string → string → B → Outcome AuthResult * B;
  svc_logout : B → Outcome unit * B;
  svc_updateProfile :
    string → gmap string JsValue → B → Outcome AuthResult * B;
}.

(** The state the provider lives in: its two [useState] cells, the
    browser's [localStorage], the backend, and the observable traces. *)
Record World := {
  w_user : option AuthUser;
  w_isLoading : bool;
  localStorage : gmap string string;
  backend : B;
  calls : list BackendCall;
  console : list ConsoleEntry;
}.

Definition setUser (u : option AuthUser) : Eff World unit :=
  modify (λ w,
    {| w_user := u; w_isLoading := w_isLoading w;
       localStorage := localStorage w; backend := backend w;
       calls := calls w; console := console w |}).

Definition setIsLoading (l : bool) : Eff World unit :=
  modify (λ w,
    {| w_user := w_user w; w_isLoading := l;
       localStorage := localStorage w; backend := backend w;
       calls := calls w; console := console w |}).

(** [localStorage.setItem(key, value)] *)
Definition localStorage_setItem (key value : string) : Eff World unit :=
  modify (λ w,
    {| w_user := w_user w; w_isLoading := w_isLoading w;
       localStorage := <[key := value]> (localStorage w);
       backend := backend w;
       calls := calls w; console := console w |}).

(** [console.error(label, error)] *)
Definition console_error (label : string) (error : JsError)
  : Eff World unit :=
  modify (λ w,
    {| w_user := w_user w; w_isLoading := w_isLoading w;
       localStorage := localStorage w; backend := backend w;
       calls := calls w;
       console := console w ++ [ConsoleError label error] |}).

(** [await authService.method(args)]: the call is recorded, the backend
    steps, and the awaited promise yields its value or throws. *)
Definition await {A} (c : BackendCall) (method : B → Outcome A * B)
  : Eff World A :=
  λ w,
    let '(r, b') := method (backend w) in
    (r, {| w_user := w_user w; w_isLoading := w_isLoading w;
           localStorage := localStorage w; backend := b';
           calls := calls w ++ [c]; console := console w |}).

Variable authService : AuthService.

(** The effect run once on mount. *)
Definition initializeAuth : Eff World unit :=
  try_finally
    (try_catch
       (currentUser ← await GetCurrentUser
                        (svc_getCurrentUser authService);
        match currentUser with
        | Some u => setUser (Some u)
        | None => mret tt
        end)
       (λ error, console_error "Error initializing auth:" error))
    (setIsLoading false).

Definition registerUser (email fullName : string) (role : UserRole)
    (profile : gmap string JsValue) : Eff World AuthResult :=
  try_catch
    (result ← await (RegisterUser email fullName role profile)
                (svc_registerUser authService email fullName role profile);
     mret result)
    (λ error,
       console_error "Registration error:" error;;
       mret (failure "Registration failed. Please try again.")).

Definition verifyRegistration (email otp : string) : Eff World AuthResult :=
  try_catch
    (result ← await (VerifyRegistration email otp)
                (svc_verifyRegistration authService email otp);
     match success result, user result, token result with
     | true, Some u, Some t =>
         if truthy t then
           setUser (Some u);;
           localStorage_setItem "healthvault_token" t
         else mret tt
     | _, _, _ => mret tt
     end;;
     mret result)
    (λ error,
       console_error "Verify registration error:" error;;
       mret (failure "Verification failed. Please try again.")).

Definition sendOTP (email : string) : Eff World AuthResult :=
  try_catch
    (result ← await (SendOTP email) (svc_sendOTP authService email);
     mret result)
    (λ error,
       console_error "Send OTP error:" error;;
       mret (failure "Failed to send OTP. Please try again.")).

Definition verifyOTPAndLogin (email otp : string) : Eff World AuthResult :=
  try_catch
    (result ← await (VerifyOTPAndLogin email otp)
                (svc_verifyOTPAndLogin authService email otp);
     match success result, user result with
     | true, Some u => setUser (Some u)
     | _, _ => mret tt
     end;;
     mret {| success := success result; message := message result;
             user := None; token := None |})
    (λ error,
       console_error "Login error:" error;;
       mret (failure "Login failed. Please try again.")).

Definition logout : Eff World unit :=
  try_catch
    (await Logout (svc_logout authService);;
     setUser None)
    (λ error, console_error "Logout error:" error).

Definition refreshSession : Eff World unit :=
  try_catch
    (currentUser ← await GetCurrentUser (svc_getCurrentUser authService);
     setUser currentUser)
    (λ error,
       console_error "Refresh session error:" error;;
       setUser None).

(** [user?.id] read through the closure, falsy when there is no user or
    its id is empty. *)
Definition current_user_id (w : World) : option string :=
  match w_user w with
  | Some u => if truthy (user_id u) then Some (user_id u) else None
  | None => None
  end.

Definition updateProfile (updates : gmap string JsValue)
  : Eff World AuthResult :=
  try_catch
    (uid ← gets current_user_id;
     match uid with
     | None => mret (failure "No user logged in")
     | Some i =>
         result ← await (UpdateProfile i updates)
                    (svc_updateProfile authService i updates);
         (if success result then refreshSession else mret tt);;
         mret result
     end)
    (λ error,
       console_error "Update profile error:" error;;
       mret (failure "Failed to update profile. Please try again.")).

End WithBackend.

Arguments AuthService : clear implicits.
Arguments World : clear implicits.

End AuthProvider.

(** ** The authentication dialog *)

Module AuthModal.

Import AuthProvider.

(** [activeTab : "login" | "register"] *)
Inductive Tab := Login | Register.

Global Instance Tab_eq_dec : EqDecision Tab.
Proof. solve_decision. Defined.

(** [step : "form" | "otp"] *)
Inductive Step := Form | Otp.

Global Instance Step_eq_dec : EqDecision Step.
Proof. solve_decision. Defined.

(** The [useState] cells of the component. *)
Record Dialog := {
  activeTab : Tab;
  step : Step;
  email : string;
  otp : string;
  isLoading : bool;
  timer : Z;
  fullName : string;
  role : UserRole;
  phone : string;
  dateOfBirth : string;
  address : string;
  specialization : string;
  licenseNumber : string;
  experience : string;
}.

(** The state of a freshly mounted dialog. *)
Definition initialDialog (defaultTab : Tab) : Dialog :=
  {| activeTab := defaultTab; step := Form; email := ""; otp := "";
     isLoading := false; timer := 0; fullName := ""; role := Patient;
     phone := ""; dateOfBirth := ""; address := ""; specialization := "";
     licenseNumber := ""; experience := "" |}.

Definition setActiveTab (v : Tab) (d : Dialog) : Dialog :=
  {| activeTab := v; step := step d; email := email d; otp := otp d;
     isLoading := isLoading d; timer := timer d; fullName := fullName d;
     role := role d; phone := phone d; dateOfBirth := dateOfBirth d;
     address := address d; specialization := specialization d;
     licenseNumber := licenseNumber d; experience := experience d |}.

Definition setStep (v : Step) (d : Dialog) : Dialog :=
  {| activeTab := activeTab d; step := v; email := email d; otp := otp d;
     isLoading := isLoading d; timer := timer d; fullName := fullName d;
     role := role d; phone := phone d; dateOfBirth := dateOfBirth d;
     address := address d; specialization := specialization d;
     licenseNumber := licenseNumber d; experience := experience d |}.

Definition setEmail (v : string) (d : Dialog) : Dialog :=
  {| activeTab := activeTab d; step := step d; email := v; otp := otp d;
     isLoading := isLoading d; timer := timer d; fullName := fullName d;
     role := role d; phone := phone d; dateOfBirth := dateOfBirth d;
     address := address d; specialization := specialization d;
     licenseNumber := licenseNumber d; experience := experience d |}.

Definition setOtp (v : string) (d : Dialog) : Dialog :=
  {| activeTab := activeTab d; step := step d; email := email d; otp := v;
     isLoading := isLoading d; timer := timer d; fullName := fullName d;
     role := role d; phone := phone d; dateOfBirth := dateOfBirth d;
     address := address d; specialization := specialization d;
     licenseNumber := licenseNumber d; experience := experience d |}.

Definition setIsLoading (v : bool) (d : Dialog) : Dialog :=
  {| activeTab := activeTab d; step := step d; email := email d;
     otp := otp d; isLoading := v; timer := timer d;
     fullName := fullName d; role := role d; phone := phone d;
     dateOfBirth := dateOfBirth d; address := address d;
     specialization := specialization d;
     licenseNumber := licenseNumber d; experience := experience d |}.

Definition setTimer (v : Z) (d : Dialog) : Dialog :=
  {| activeTab := activeTab d; step := step d; email := email d;
     otp := otp d; isLoading := isLoading d; timer := v;
     fullName := fullName d; role := role d; phone := phone d;
     dateOfBirth := dateOfBirth d; address := address d;
     specialization := specialization d;
     licenseNumber := licenseNumber d; experience := experience d |}.

Definition setFullName (v : string) (d : Dialog) : Dialog :=
  {| activeTab := activeTab d; step := step d; email := email d;
     otp := otp d; isLoading := isLoading d; timer := timer d;
     fullName := v; role := role d; phone := phone d;
     dateOfBirth := dateOfBirth d; address := address d;
     specialization := specialization d;
     licenseNumber := licenseNumber d; experience := experience d |}.

Definition setRole (v : UserRole) (d : Dialog) : Dialog :=
  {| activeTab := activeTab d; step := step d; email := email d;
     otp := otp d; isLoading := isLoading d; timer := timer d;
     fullName := fullName d; role := v; phone := phone d;
     dateOfBirth := dateOfBirth d; address := address d;
     specialization := specialization d;
     licenseNumber := licenseNumber d; experience := experience d |}.

Definition setPhone (v : string) (d : Dialog) : Dialog :=
  {| activeTab := activeTab d; step := step d; email := email d;
     otp := otp d; isLoading := isLoading d; timer := timer d;
     fullName := fullName d; role := role d; phone := v;
     dateOfBirth := dateOfBirth d; address := address d;
     specialization := specialization d;
     licenseNumber := licenseNumber d; experience := experience d |}.

Definition setDateOfBirth (v : string) (d : Dialog) : Dialog :=
  {| activeTab := activeTab d; step := step d; email := email d;
     otp := otp d; isLoading := isLoading d; timer := timer d;
     fullName := fullName d; role := role d; phone := phone d;
     dateOfBirth := v; address := address d;
     specialization := specialization d;
     licenseNumber := licenseNumber d; experience := experience d |}.

Definition setAddress (v : string) (d : Dialog) : Dialog :=
  {| activeTab := activeTab d; step := step d; email := email d;
     otp := otp d; isLoading := isLoading d; timer := timer d;
     fullName := fullName d; role := role d; phone := phone d;
     dateOfBirth := dateOfBirth d; address := v;
     specialization := specialization d;
     licenseNumber := licenseNumber d; experience := experience d |}.

Definition setSpecialization (v : string) (d : Dialog) : Dialog :=
  {| activeTab := activeTab d; step := step d; email := email d;
     otp := otp d; isLoading := isLoading d; timer := timer d;
     fullName := fullName d; role := role d; phone := phone d;
     dateOfBirth := dateOfBirth d; address := address d;
     specialization := v;
     licenseNumber := licenseNumber d; experience := experience d |}.

Definition setLicenseNumber (v : string) (d : Dialog) : Dialog :=
  {| activeTab := activeTab d; step := step d; email := email d;
     otp := otp d; isLoading := isLoading d; timer := timer d;
     fullName := fullName d; role := role d; phone := phone d;
     dateOfBirth := dateOfBirth d; address := address d;
     specialization := specialization d;
     licenseNumber := v; experience := experience d |}.

Definition setExperience (v : string) (d : Dialog) : Dialog :=
  {| activeTab := activeTab d; step := step d; email := email d;
     otp := otp d; isLoading := isLoading d; timer := timer d;
     fullName := fullName d; role := role d; phone := phone d;
     dateOfBirth := dateOfBirth d; address := address d;
     specialization := specialization d;
     licenseNumber := licenseNumber d; experience := v |}.

(** [resetForm], setter by setter. *)
Definition resetForm (d : Dialog) : Dialog :=
  setTimer 0
    (setExperience ""
      (setLicenseNumber ""
        (setSpecialization ""
          (setAddress ""
            (setDateOfBirth ""
              (setPhone ""
                (setFullName ""
                  (setOtp ""
                    (setEmail ""
                      (setStep Form d)))))))))).

(** [handleBackToForm] *)
Definition handleBackToForm (d : Dialog) : Dialog :=
  setTimer 0 (setOtp "" (setStep Form d)).

(** The [onChange] of the code field:
    [setOtp(e.target.value.replace(/\D/g, "").slice(0, 6))]. *)
Definition otpOnChange (value : string) (d : Dialog) : Dialog :=
  setOtp (slice_0 6 (strip_non_digits value)) d.

(** The role button: [setRole(role === "patient" ? "doctor" : "patient")]. *)
Definition toggleRole (d : Dialog) : Dialog :=
  setRole (if decide (role d = Patient) then Doctor else Patient) d.

(** The profile object built for [registerUser]. *)
Definition profile (d : Dialog) : gmap string JsValue :=
  if decide (role d = Patient) then
    <["phone" := JsString (phone d)]>
      (<["dateOfBirth" := JsString (dateOfBirth d)]>
        (<["address" := JsString (address d)]> ∅))
  else
    <["phone" := JsString (phone d)]>
      (<["specialization" := JsString (specialization d)]>
        (<["licenseNumber" := JsString (licenseNumber d)]>
          (<["experience" := JsNumber (or_zero (parseInt (experience d)))]>
            ∅))).

(** The credentials draft held by the dialog. *)
Definition draft (d : Dialog) :=
  (email d, fullName d, role d, phone d, dateOfBirth d, address d,
   specialization d, licenseNumber d, experience d).

(** What holds of the cells of a mounted dialog at every moment: the
    stored code is made of at most 6 digits, the timer is between 0 and 60,
    and the form view has no code and no cooldown. *)
Definition well_formed (d : Dialog) : Prop :=
  all_digits (otp d) = true ∧ (String.length (otp d) ≤ 6)%nat ∧
  0 ≤ timer d ≤ 60 ∧
  (step d = Form → otp d = "" ∧ timer d = 0).

(** The field names of the two profile shapes. *)
Definition patientFields : gset string :=
  {[ "phone"; "dateOfBirth"; "address" ]}.

Definition doctorFields : gset string :=
  {[ "phone"; "specialization"; "licenseNumber"; "experience" ]}.

(** A notification handed to [toast]. *)
Inductive Variant := Default | Destructive.

Record Toast := {
  title : string;
  description : string;
  variant : Variant;
}.

(** The notification of a sent code. *)
Definition sentToast (isLogin : bool) : Toast :=
  {| title := if isLogin then "OTP Sent!" else "Registration Successful!";
     description := "Please check your email for the verification code.";
     variant := Default |}.

(** The notification of a refused request. *)
Definition refusedToast (isLogin : bool) (r : AuthResult) : Toast :=
  {| title := if isLogin then "Login Failed" else "Registration Failed";
     description := message r;
     variant := Destructive |}.

(** The notification of a missing field. *)
Definition requiredToast (isLogin : bool) (d : Dialog) : Toast :=
  if truthy (email d) then
    {| title := "Name Required";
       description := "Please enter your full name.";
       variant := Destructive |}
  else
    {| title := "Email Required";
       description := "Please enter your email address.";
       variant := Destructive |}.

(** The notifications of [handleVerifyOTP]. *)
Definition invalidOtpToast (description : string) : Toast :=
  {| title := "Invalid OTP"; description := description;
     variant := Destructive |}.

Definition welcomeToast (d : Dialog) : Toast :=
  {| title := "Welcome to HealthVault!";
     description :=
       if decide (activeTab d = Register)
       then "Registration successful! Redirecting to your dashboard..."
       else "Authentication successful. Redirecting to your dashboard...";
     variant := Default |}.

(** A navigation performed by a scheduled callback. *)
Inductive Navigation :=
| RouterPush (path : string)
| LocationHref (path : string).

(** [setTimeout(callback, delay)] *)
Record Timeout := {
  callback : Navigation;
  delay : Z;
}.

Section WithBackend.

Context {B : Type}.

(** The dialog in its environment: its own cells, the session context
    below it, and what it emits (notifications, calls of the
    [onOpenChange] prop, scheduled navigations, running intervals). *)
Record Sys := {
  dialog : Dialog;
  world : World B;
  toasts : list Toast;
  openChanges : list bool;
  timeouts : list Timeout;
  intervals : list nat;
  nextHandle : nat;
}.

Definition update (f : Dialog → Dialog) : Eff Sys unit :=
  modify (λ s,
    {| dialog := f (dialog s); world := world s; toasts := toasts s;
       openChanges := openChanges s; timeouts := timeouts s;
       intervals := intervals s; nextHandle := nextHandle s |}).

(** A session-context operation run from the dialog. *)
Definition useAuth {A} (c : Eff (World B) A) : Eff Sys A :=
  λ s,
    let '(r, w') := c (world s) in
    (r, {| dialog := dialog s; world := w'; toasts := toasts s;
           openChanges := openChanges s; timeouts := timeouts s;
           intervals := intervals s; nextHandle := nextHandle s |}).

Definition toast (t : Toast) : Eff Sys unit :=
  modify (λ s,
    {| dialog := dialog s; world := world s; toasts := toasts s ++ [t];
       openChanges := openChanges s; timeouts := timeouts s;
       intervals := intervals s; nextHandle := nextHandle s |}).

Definition onOpenChange (open : bool) : Eff Sys unit :=
  modify (λ s,
    {| dialog := dialog s; world := world s; toasts := toasts s;
       openChanges := openChanges s ++ [open]; timeouts := timeouts s;
       intervals := intervals s; nextHandle := nextHandle s |}).

Definition setTimeout (cb : Navigation) (ms : Z) : Eff Sys unit :=
  modify (λ s,
    {| dialog := dialog s; world := world s; toasts := toasts s;
       openChanges := openChanges s;
       timeouts := timeouts s ++ [{| callback := cb; delay := ms |}];
       intervals := intervals s; nextHandle := nextHandle s |}).

(** [setInterval(tick, 1000)]: a fresh handle starts running. Every
    interval of the dialog runs the same callback, [intervalTick]. *)
Definition setInterval : Eff Sys nat :=
  λ s,
    (Returns (nextHandle s),
     {| dialog := dialog s; world := world s; toasts := toasts s;
        openChanges := openChanges s; timeouts := timeouts s;
        intervals := nextHandle s :: intervals s;
        nextHandle := S (nextHandle s) |}).

Definition clearInterval (h : nat) : Eff Sys unit :=
  modify (λ s,
    {| dialog := dialog s; world := world s; toasts := toasts s;
       openChanges := openChanges s; timeouts := timeouts s;
       intervals := filter (λ i, i ≠ h) (intervals s);
       nextHandle := nextHandle s |}).

(** The callback of the countdown interval with handle [h]:
    [setTimer(prev => { if (prev <= 1) { clearInterval(interval); return 0 }
    return prev - 1 })]. A cleared interval fires no more. *)
Definition intervalTick (h : nat) : Eff Sys unit :=
  active ← gets (λ s, bool_decide (h ∈ intervals s));
  if active : bool then
    prev ← gets (λ s, timer (dialog s));
    if prev <=? 1 then
      clearInterval h;;
      update (setTimer 0)
    else update (setTimer (prev - 1))
  else mret tt.

Variable authService : AuthService B.

(** The validation at the head of [handleSendOTP]: an email, and for a
    registration a full name. *)
Definition validated (isLogin : bool) (d : Dialog) : bool :=
  truthy (email d) && (isLogin || truthy (fullName d)).

(** The session-context operation [handleSendOTP] delegates to. *)
Definition initiate (isLogin : bool) (d : Dialog)
  : Eff (World B) AuthResult :=
  if isLogin then sendOTP authService (email d)
  else registerUser authService (email d) (fullName d) (role d) (profile d).

(** The backend call behind it. *)
Definition initiateCall (isLogin : bool) (d : Dialog) : BackendCall :=
  if isLogin then SendOTP (email d)
  else RegisterUser (email d) (fullName d) (role d) (profile d).

(** What the backend settles that call with, from the backend state [b]. *)
Definition answer (isLogin : bool) (d : Dialog) (b : B)
  : Outcome AuthResult :=
  if isLogin then fst (svc_sendOTP authService (email d) b)
  else fst (svc_registerUser authService (email d) (fullName d) (role d)
              (profile d) b).

(** The session-context operation [handleVerifyOTP] delegates to. *)
Definition verify (d : Dialog) : Eff (World B) AuthResult :=
  if decide (activeTab d = Register)
  then verifyRegistration authService (email d) (otp d)
  else verifyOTPAndLogin authService (email d) (otp d).

(** The backend call behind it. *)
Definition verifyCall (d : Dialog) : BackendCall :=
  if decide (activeTab d = Register)
  then VerifyRegistration (email d) (otp d)
  else VerifyOTPAndLogin (email d) (otp d).

(** [handleSendOTP(isLogin)]. The [return] inside the [try] block is the
    [false] of the inner computation: the statements after the branch are
    skipped, the [finally] block still runs. *)
Definition handleSendOTP (isLogin : bool) : Eff Sys unit :=
  d ← gets dialog;
  if negb (truthy (email d)) then
    toast {| title := "Email Required";
             description := "Please enter your email address.";
             variant := Destructive |}
  else if negb isLogin && negb (truthy (fullName d)) then
    toast {| title := "Name Required";
             description := "Please enter your full name.";
             variant := Destructive |}
  else
    update (setIsLoading true);;
    try_finally
      (try_catch
         (sent ←
            (if negb isLogin then
               result ← useAuth (registerUser authService (email d)
                                   (fullName d) (role d) (profile d));
               if negb (success result) then
                 toast {| title := "Registration Failed";
                          description := message result;
                          variant := Destructive |};;
                 update (setIsLoading false);;
                 mret false
               else
                 toast {| title := "Registration Successful!";
                          description :=
                            "Please check your email for the verification code.";
                          variant := Default |};;
                 mret true
             else
               result ← useAuth (sendOTP authService (email d));
               if negb (success result) then
                 toast {| title := "Login Failed";
                          description := message result;
                          variant := Destructive |};;
                 update (setIsLoading false);;
                 mret false
               else
                 toast {| title := "OTP Sent!";
                          description :=
                            "Please check your email for the verification code.";
                          variant := Default |};;
                 mret true);
          if sent : bool then
            update (setStep Otp);;
            update (setTimer 60);;
            setInterval;;
            mret tt
          else mret tt)
         (λ error,
            toast {| title := "Error";
                     description := "Something went wrong. Please try again.";
                     variant := Destructive |}))
      (update (setIsLoading false)).

(** The dashboard of a role. *)
Definition dashboardPath (r : UserRole) : string :=
  if decide (r = Doctor) then "/doctor/dashboard" else "/patient/dashboard".

(** [handleVerifyOTP]. The scheduled callbacks read [role] and [authUser]
    through the closure of the handler, so their targets are fixed by the
    state the handler starts from. *)
Definition handleVerifyOTP : Eff Sys unit :=
  d ← gets dialog;
  authUser ← gets (λ s, w_user (world s));
  if negb (String.length (otp d) =? 6)%nat then
    toast {| title := "Invalid OTP";
             description := "Please enter a valid 6-digit OTP.";
             variant := Destructive |}
  else
    update (setIsLoading true);;
    try_finally
      (try_catch
         (let isRegistration := bool_decide (activeTab d = Register) in
          if isRegistration then
            result ← useAuth (verifyRegistration authService (email d) (otp d));
            if success result then
              toast {| title := "Welcome to HealthVault!";
                       description :=
                         "Registration successful! Redirecting to your dashboard...";
                       variant := Default |};;
              onOpenChange false;;
              update resetForm;;
              setTimeout (RouterPush (dashboardPath (role d))) 1000
            else
              toast {| title := "Invalid OTP";
                       description := message result;
                       variant := Destructive |}
          else
            result ← useAuth (verifyOTPAndLogin authService (email d) (otp d));
            if success result then
              toast {| title := "Welcome to HealthVault!";
                       description :=
                         "Authentication successful. Redirecting to your dashboard...";
                       variant := Default |};;
              onOpenChange false;;
              update resetForm;;
              setTimeout
                (LocationHref
                   match authUser with
                   | Some u => dashboardPath (user_role u)
                   | None => "/patient/dashboard"
                   end) 1000
            else
              toast {| title := "Invalid OTP";
                       description := message result;
                       variant := Destructive |})
         (λ error,
            toast {| title := "Verification Failed";
                     description := "Please try again.";
                     variant := Destructive |}))
      (update (setIsLoading false)).

(** The navigation [handleVerifyOTP] schedules when the code is accepted;
    [authUser] is the session user the handler was rendered with. *)
Definition redirect (d : Dialog) (authUser : option AuthUser) : Timeout :=
  {| callback :=
       if decide (activeTab d = Register)
       then RouterPush (dashboardPath (role d))
       else LocationHref
              match authUser with
              | Some u => dashboardPath (user_role u)
              | None => "/patient/dashboard"
              end;
     delay := 1000 |}.

(** [handleResendOTP] *)
Definition handleResendOTP : Eff Sys unit :=
  t ← gets (λ s, timer (dialog s));
  tab ← gets (λ s, activeTab (dialog s));
  if t =? 0 then handleSendOTP (bool_decide (tab = Login))
  else mret tt.

(** What can happen to a mounted dialog: the user edits a field, presses
    a button, or an interval fires. *)
Inductive Event :=
| ChangeTab (value : Tab)
| ChangeEmail (value : string)
| ChangeFullName (value : string)
| ClickRole
| ChangePhone (value : string)
| ChangeDateOfBirth (value : string)
| ChangeAddress (value : string)
| ChangeSpecialization (value : string)
| ChangeExperience (value : string)
| ChangeLicenseNumber (value : string)
| ChangeOtp (value : string)
| ClickSend (isLogin : bool)
| ClickVerify
| ClickResend
| ClickBack
| Tick (handle : nat).

Definition handler (e : Event) : Eff Sys unit :=
  match e with
  | ChangeTab v => update (setActiveTab v)
  | ChangeEmail v => update (setEmail v)
  | ChangeFullName v => update (setFullName v)
  | ClickRole => update toggleRole
  | ChangePhone v => update (setPhone v)
  | ChangeDateOfBirth v => update (setDateOfBirth v)
  | ChangeAddress v => update (setAddress v)
  | ChangeSpecialization v => update (setSpecialization v)
  | ChangeExperience v => update (setExperience v)
  | ChangeLicenseNumber v => update (setLicenseNumber v)
  | ChangeOtp v => update (otpOnChange v)
  | ClickSend isLogin => handleSendOTP isLogin
  | ClickVerify => handleVerifyOTP
  | ClickResend => handleResendOTP
  | ClickBack => update handleBackToForm
  | Tick h => intervalTick h
  end.

(** The control of an event is on screen: the component renders the code
    view in the [otp] step and the form view otherwise. The [disabled]
    attributes of the buttons are not relied on, every handler checks for
    itself. *)
Definition rendered (e : Event) (d : Dialog) : bool :=
  match e with
  | ChangeOtp _ | ClickVerify | ClickResend | ClickBack =>
      bool_decide (step d = Otp)
  | Tick _ => true
  | _ => bool_decide (step d = Form)
  end.

(** The [disabled] attribute of the button behind an event:
    [isLoading || !email] on "Send Login Code",
    [isLoading || !email || !fullName] on "Create Account",
    [isLoading || otp.length !== 6] on "Verify Code" and [timer > 0] on the
    resend button; the other controls are never disabled. *)
Definition disabled (e : Event) (d : Dialog) : bool :=
  match e with
  | ClickSend true => isLoading d || negb (truthy (email d))
  | ClickSend false =>
      isLoading d || negb (truthy (email d)) || negb (truthy (fullName d))
  | ClickVerify => isLoading d || negb (String.length (otp d) =? 6)%nat
  | ClickResend => 0 <? timer d
  | _ => false
  end.

(** The state an event leaves behind. *)
Definition after (e : Event) (s : Sys) : Sys :=
  if rendered e (dialog s) then state_after (handler e) s else s.

(** The state after a sequence of events, first event first. *)
Definition run (es : list Event) (s : Sys) : Sys :=
  foldl (λ acc e, after e acc) s es.

(** A dialog mounted over a session context. *)
Definition mount (defaultTab : Tab) (w : World B) : Sys :=
  {| dialog := initialDialog defaultTab; world := w; toasts := [];
     openChanges := []; timeouts := []; intervals := []; nextHandle := 0 |}.

(** The states a mounted dialog can be in. *)
Definition reachable (s : Sys) : Prop :=
  ∃ defaultTab w es, s = run es (mount defaultTab w).

End WithBackend.

Arguments Sys : clear implicits.

End AuthModal.

(** ** Concrete backends and states, to run the model on *)

Module Scenario.

Import AuthProvider AuthModal.

Definition drX : AuthUser :=
  {| user_id := "u-1"; user_email := "d@x.com"; user_role := Doctor |}.

Definition ok (msg : string) : AuthResult :=
  {| success := true; message := msg; user := None; token := None |}.

(** A backend that accepts every request; the hidden state counts them. *)
Definition accepting : AuthService nat :=
  {| svc_getCurrentUser := λ b, (Returns (Some drX), S b);
     svc_registerUser := λ _ _ _ _ b, (Returns (ok "Code sent"), S b);
     svc_verifyRegistration := λ _ _ b,
       (Returns {| success := true; message := "Verified";
                   user := Some drX; token := Some "tok-1" |}, S b);
     svc_sendOTP := λ _ b, (Returns (ok "Code sent"), S b);
     svc_verifyOTPAndLogin := λ _ _ b,
       (Returns {| success := true; message := "Logged in";
                   user := Some drX; token := None |}, S b);
     svc_logout := λ b, (Returns tt, S b);
     svc_updateProfile := λ _ _ b, (Returns (ok "Updated"), S b) |}.

(** A backend out of reach: every call rejects. *)
Definition unreachable : AuthService nat :=
  {| svc_getCurrentUser := λ b, (Throws (Error "Network error"), b);
     svc_registerUser := λ _ _ _ _ b, (Throws (Error "Network error"), b);
     svc_verifyRegistration := λ _ _ b, (Throws (Error "Network error"), b);
     svc_sendOTP := λ _ b, (Throws (Error "Network error"), b);
     svc_verifyOTPAndLogin := λ _ _ b, (Throws (Error "Network error"), b);
     svc_logout := λ b, (Throws (Error "Network error"), b);
     svc_updateProfile := λ _ _ b, (Throws (Error "Network error"), b) |}.

(** A backend that turns every request down with a message. *)
Definition refusing : AuthService nat :=
  {| svc_getCurrentUser := λ b, (Returns None, S b);
     svc_registerUser := λ _ _ _ _ b,
       (Returns (failure "Email already registered"), S b);
     svc_verifyRegistration := λ _ _ b,
       (Returns (failure "Wrong code"), S b);
     svc_sendOTP := λ _ b, (Returns (failure "Unknown email"), S b);
     svc_verifyOTPAndLogin := λ _ _ b,
       (Returns (failure "Wrong code"), S b);
     svc_logout := λ b, (Returns tt, S b);
     svc_updateProfile := λ _ _ b,
       (Returns (failure "Invalid profile"), S b) |}.

(** A backend whose profile update succeeds while the session can no
    longer be fetched. *)
Definition expiring : AuthService nat :=
  {| svc_getCurrentUser := λ b, (Throws (Error "Session expired"), S b);
     svc_registerUser := svc_registerUser accepting;
     svc_verifyRegistration := svc_verifyRegistration accepting;
     svc_sendOTP := svc_sendOTP accepting;
     svc_verifyOTPAndLogin := svc_verifyOTPAndLogin accepting;
     svc_logout := svc_logout accepting;
     svc_updateProfile := svc_updateProfile accepting |}.

(** Nobody is signed in. *)
Definition signedOut : World nat :=
  {| w_user := None; w_isLoading := false; localStorage := ∅;
     backend := 0%nat; calls := []; console := [] |}.

(** Dr. X is signed in. *)
Definition signedIn : World nat :=
  {| w_user := Some drX; w_isLoading := false;
     localStorage := {[ "healthvault_token" := "tok-1" ]};
     backend := 0%nat; calls := []; console := [] |}.

(** The registration of the scenario: role doctor, [d@x.com], "Dr. X". *)
Definition doctorForm : list Event :=
  [ChangeTab Register; ClickRole; ChangeEmail "d@x.com";
   ChangeFullName "Dr. X"].

(** The dialog with that form filled in. *)
Definition doctorFormFilled : Sys nat :=
  run accepting doctorForm (mount Register signedOut).

(** The dialog after that registration was sent and the code typed. *)
Definition doctorCodeTyped : Sys nat :=
  run accepting (doctorForm ++ [ClickSend false; ChangeOtp "000000"])
    (mount Register signedOut).

(** The login form with [a@b.com] typed. *)
Definition loginFormFilled : Sys nat :=
  run accepting [ChangeEmail "a@b.com"] (mount Login signedOut).

(** The login of the scenario, up to the code view. *)
Definition loginCodeView : Sys nat :=
  run accepting [ChangeEmail "a@b.com"; ClickSend true]
    (mount Login signedOut).

(** The login of the scenario with the code typed. *)
Definition loginCodeTyped : Sys nat :=
  run accepting [ChangeOtp "123456"] loginCodeView.

(** A registration that keeps the default role, patient, with the code
    typed. *)
Definition patientCodeTyped : Sys nat :=
  run accepting
    [ChangeTab Register; ChangeEmail "p@x.com"; ChangeFullName "P";
     ClickSend false; ChangeOtp "000000"]
    (mount Register signedOut).

End Scenario.

(** * Properties *)

Import AuthProvider AuthModal Scenario.

(** Unfolds the monad down to pairs of a completion and a state. *)
Ltac eff_unfold :=
  unfold result_of, state_after, try_catch, try_finally,
    mbind, Eff_bind, mret, Eff_ret, gets, modify in *.

(** Unfolds the primitives of the provider. *)
Ltac provider_unfold :=
  unfold await, setUser, AuthProvider.setIsLoading, localStorage_setItem,
    console_error in *;
  eff_unfold.

(** ** The session context *)

Section ProviderFacts.

Context {B : Type} (authService : AuthService B).

Implicit Types (w : World B) (e : JsError).

Lemma registerUser_returns email fullName role profile w :
  ∃ r, result_of (registerUser authService email fullName role profile) w
       = Returns r.
Proof.
  unfold registerUser; provider_unfold.
  destruct (svc_registerUser _ _ _ _ _ _) as [[r|e] b']; simpl; eauto.
Qed.

Lemma registerUser_throws email fullName role profile w e b' :
  svc_registerUser authService email fullName role profile (backend w)
    = (Throws e, b') →
  result_of (registerUser authService email fullName role profile) w
    = Returns (failure "Registration failed. Please try again.").
Proof.
  intros Hthrow. unfold registerUser; provider_unfold.
  rewrite Hthrow. reflexivity.
Qed.

Lemma verifyRegistration_returns email otp w :
  ∃ r, result_of (verifyRegistration authService email otp) w = Returns r.
Proof.
  unfold verifyRegistration; provider_unfold.
  destruct (svc_verifyRegistration _ _ _ _) as [[r|e] b']; simpl; eauto.
  destruct (success r), (user r), (token r) as [t|];
    simpl; eauto; destruct (truthy t); simpl; eauto.
Qed.

Lemma verifyRegistration_throws email otp w e b' :
  svc_verifyRegistration authService email otp (backend w) = (Throws e, b') →
  result_of (verifyRegistration authService email otp) w
    = Returns (failure "Verification failed. Please try again.").
Proof.
  intros Hthrow. unfold verifyRegistration; provider_unfold.
  rewrite Hthrow. reflexivity.
Qed.

Lemma sendOTP_returns email w :
  ∃ r, result_of (sendOTP authService email) w = Returns r.
Proof.
  unfold sendOTP; provider_unfold.
  destruct (svc_sendOTP _ _ _) as [[r|e] b']; simpl; eauto.
Qed.

Lemma sendOTP_throws email w e b' :
  svc_sendOTP authService email (backend w) = (Throws e, b') →
  result_of (sendOTP authService email) w
    = Returns (failure "Failed to send OTP. Please try again.").
Proof.
  intros Hthrow. unfold sendOTP; provider_unfold.
  rewrite Hthrow. reflexivity.
Qed.

Lemma verifyOTPAndLogin_returns email otp w :
  ∃ r, result_of (verifyOTPAndLogin authService email otp) w = Returns r.
Proof.
  unfold verifyOTPAndLogin; provider_unfold.
  destruct (svc_verifyOTPAndLogin _ _ _ _) as [[r|e] b']; simpl; eauto.
  destruct (success r), (user r); simpl; eauto.
Qed.

Lemma verifyOTPAndLogin_throws email otp w e b' :
  svc_verifyOTPAndLogin authService email otp (backend w) = (Throws e, b') →
  result_of (verifyOTPAndLogin authService email otp) w
    = Returns (failure "Login failed. Please try again.").
Proof.
  intros Hthrow. unfold verifyOTPAndLogin; provider_unfold.
  rewrite Hthrow. reflexivity.
Qed.

Lemma logout_returns w : result_of (logout authService) w = Returns tt.
Proof.
  unfold logout; provider_unfold.
  destruct (svc_logout _ _) as [[[]|e] b']; reflexivity.
Qed.

Lemma refreshSession_run w :
  ∃ w', refreshSession authService w = (Returns tt, w').
Proof.
  unfold refreshSession; provider_unfold.
  destruct (svc_getCurrentUser _ _) as [[u|e] b']; simpl; eauto.
Qed.

Lemma refreshSession_returns w :
  result_of (refreshSession authService) w = Returns tt.
Proof.
  destruct (refreshSession_run w) as [w' Hrun].
  unfold result_of. rewrite Hrun. reflexivity.
Qed.

Lemma updateProfile_returns updates w :
  ∃ r, result_of (updateProfile authService updates) w = Returns r.
Proof.
  unfold updateProfile; provider_unfold.
  destruct (current_user_id w) as [i|]; simpl; eauto.
  destruct (svc_updateProfile _ _ _ _) as [[r|e] b']; simpl; eauto.
  destruct (success r); simpl; eauto.
  match goal with
  | |- context [refreshSession authService ?w1] =>
      destruct (refreshSession_run w1) as [w' Hrun]; rewrite Hrun
  end.
  simpl; eauto.
Qed.

Lemma updateProfile_throws updates w i e b' :
  current_user_id w = Some i →
  svc_updateProfile authService i updates (backend w) = (Throws e, b') →
  result_of (updateProfile authService updates) w
    = Returns (failure "Failed to update profile. Please try again.").
Proof.
  intros Hid Hthrow. unfold updateProfile; provider_unfold.
  rewrite Hid; simpl. rewrite Hthrow. reflexivity.
Qed.

(** What [registerUser] leaves behind: one recorded call, and at most a
    line on the console. *)
Lemma registerUser_frame email fullName role profile w :
  let w' := state_after (registerUser authService email fullName role profile) w in
  w_user w' = w_user w ∧ localStorage w' = localStorage w ∧
  w_isLoading w' = w_isLoading w ∧
  calls w' = calls w ++ [RegisterUser email fullName role profile].
Proof.
  unfold registerUser; provider_unfold.
  destruct (svc_registerUser _ _ _ _ _ _) as [[r|e] b']; simpl; auto.
Qed.

Lemma sendOTP_frame email w :
  let w' := state_after (sendOTP authService email) w in
  w_user w' = w_user w ∧ localStorage w' = localStorage w ∧
  w_isLoading w' = w_isLoading w ∧
  calls w' = calls w ++ [SendOTP email].
Proof.
  unfold sendOTP; provider_unfold.
  destruct (svc_sendOTP _ _ _) as [[r|e] b']; simpl; auto.
Qed.

Lemma verifyRegistration_calls email otp w :
  calls (state_after (verifyRegistration authService email otp) w)
    = calls w ++ [VerifyRegistration email otp].
Proof.
  unfold verifyRegistration; provider_unfold.
  destruct (svc_verifyRegistration _ _ _ _) as [[r|e] b']; simpl; auto.
  destruct (success r), (user r), (token r) as [t|];
    simpl; auto; destruct (truthy t); simpl; auto.
Qed.

Lemma verifyOTPAndLogin_calls email otp w :
  calls (state_after (verifyOTPAndLogin authService email otp) w)
    = calls w ++ [VerifyOTPAndLogin email otp].
Proof.
  unfold verifyOTPAndLogin; provider_unfold.
  destruct (svc_verifyOTPAndLogin _ _ _ _) as [[r|e] b']; simpl; auto.
  destruct (success r), (user r); simpl; auto.
Qed.

(** The run of [verifyRegistration] on a successful answer that carries a
    user and a token. *)
Lemma verifyRegistration_success email otp w r u t b' :
  svc_verifyRegistration authService email otp (backend w) = (Returns r, b') →
  success r = true → user r = Some u → token r = Some t → truthy t = true →
  verifyRegistration authService email otp w
    = (Returns r,
       {| w_user := Some u; w_isLoading := w_isLoading w;
          localStorage := <["healthvault_token" := t]> (localStorage w);
          backend := b';
          calls := calls w ++ [VerifyRegistration email otp];
          console := console w |}).
Proof.
  intros Hrun Hsuccess Huser Htoken Htruthy.
  unfold verifyRegistration; provider_unfold.
  rewrite Hrun; simpl. rewrite Hsuccess, Huser, Htoken, Htruthy.
  reflexivity.
Qed.

(** A [logout] the backend completes clears the session user. *)
Lemma logout_clears_user_when_backend_returns w b' :
  svc_logout authService (backend w) = (Returns tt, b') →
  w_user (state_after (logout authService) w) = None.
Proof.
  intros Hrun. unfold logout; provider_unfold. rewrite Hrun. reflexivity.
Qed.

(** C1 (the code at the failing input): when [authService.logout()]
    throws, [logout] still returns normally and writes the error on the
    console, but [setUser(null)] is skipped: the session user stays what it
    was, where the specification has it cleared on this path too. *)
Theorem logout_keeps_user_when_backend_throws w e b' :
  svc_logout authService (backend w) = (Throws e, b') →
  result_of (logout authService) w = Returns tt ∧
  w_user (state_after (logout authService) w) = w_user w ∧
  console (state_after (logout authService) w)
    = console w ++ [ConsoleError "Logout error:" e].
Proof.
  intros Hthrow. unfold logout; provider_unfold. rewrite Hthrow.
  simpl. auto.
Qed.

(** C4: every operation of the session context returns normally, whatever
    its input, the state and the behaviour of the backend; and when the
    backend call of a result-returning operation throws, the operation
    returns [{ success: false, message }] with its fixed message. *)
Theorem session_operations_catch_backend_exceptions w :
  (∀ email fullName role profile,
     (∃ r, result_of (registerUser authService email fullName role profile) w
           = Returns r) ∧
     (∀ e b',
        svc_registerUser authService email fullName role profile (backend w)
          = (Throws e, b') →
        result_of (registerUser authService email fullName role profile) w
          = Returns (failure "Registration failed. Please try again."))) ∧
  (∀ email otp,
     (∃ r, result_of (verifyRegistration authService email otp) w
           = Returns r) ∧
     (∀ e b',
        svc_verifyRegistration authService email otp (backend w)
          = (Throws e, b') →
        result_of (verifyRegistration authService email otp) w
          = Returns (failure "Verification failed. Please try again."))) ∧
  (∀ email,
     (∃ r, result_of (sendOTP authService email) w = Returns r) ∧
     (∀ e b',
        svc_sendOTP authService email (backend w) = (Throws e, b') →
        result_of (sendOTP authService email) w
          = Returns (failure "Failed to send OTP. Please try again."))) ∧
  (∀ email otp,
     (∃ r, result_of (verifyOTPAndLogin authService email otp) w
           = Returns r) ∧
     (∀ e b',
        svc_verifyOTPAndLogin authService email otp (backend w)
          = (Throws e, b') →
        result_of (verifyOTPAndLogin authService email otp) w
          = Returns (failure "Login failed. Please try again."))) ∧
  result_of (logout authService) w = Returns tt ∧
  result_of (refreshSession authService) w = Returns tt ∧
  (∀ updates,
     (∃ r, result_of (updateProfile authService updates) w = Returns r) ∧
     (∀ i e b',
        current_user_id w = Some i →
        svc_updateProfile authService i updates (backend w)
          = (Throws e, b') →
        result_of (updateProfile authService updates) w
          = Returns (failure "Failed to update profile. Please try again."))).
Proof.
  repeat split; intros.
  - apply registerUser_returns.
  - eapply registerUser_throws; eassumption.
  - apply verifyRegistration_returns.
  - eapply verifyRegistration_throws; eassumption.
  - apply sendOTP_returns.
  - eapply sendOTP_throws; eassumption.
  - apply verifyOTPAndLogin_returns.
  - eapply verifyOTPAndLogin_throws; eassumption.
  - apply logout_returns.
  - apply refreshSession_returns.
  - apply updateProfile_returns.
  - eapply updateProfile_throws; eassumption.
Qed.

(** C10: [registerUser] and [sendOTP] leave the session user and the
    persisted token storage as they were, for every input, state and
    backend outcome (a result with either [success], or an exception). *)
Theorem registerUser_sendOTP_leave_session_unchanged w :
  (∀ email fullName role profile,
     let w' :=
       state_after (registerUser authService email fullName role profile) w in
     w_user w' = w_user w ∧ localStorage w' = localStorage w) ∧
  (∀ email,
     let w' := state_after (sendOTP authService email) w in
     w_user w' = w_user w ∧ localStorage w' = localStorage w).
Proof.
  split.
  - intros email fullName role profile.
    destruct (registerUser_frame email fullName role profile w)
      as (Huser & Hstorage & _). auto.
  - intros email.
    destruct (sendOTP_frame email w) as (Huser & Hstorage & _). auto.
Qed.

End ProviderFacts.

(** The unreachable backend, with Dr. X signed in: [logout] leaves her
    signed in. *)
Lemma logout_keeps_user_when_backend_throws_witness :
  result_of (logout unreachable) signedIn = Returns tt ∧
  w_user (state_after (logout unreachable) signedIn) = Some drX ∧
  console (state_after (logout unreachable) signedIn)
    = [ConsoleError "Logout error:" (Error "Network error")].
Proof.
  apply (logout_keeps_user_when_backend_throws unreachable signedIn
           (Error "Network error") 0%nat).
  reflexivity.
Defined.

(** The unreachable backend: each result-returning operation answers with
    its failure object. *)
Lemma session_operations_catch_backend_exceptions_witness :
  result_of (registerUser unreachable "a@b.com" "A" Patient ∅) signedIn
    = Returns (failure "Registration failed. Please try again.") ∧
  result_of (verifyRegistration unreachable "a@b.com" "123456") signedIn
    = Returns (failure "Verification failed. Please try again.") ∧
  result_of (sendOTP unreachable "a@b.com") signedIn
    = Returns (failure "Failed to send OTP. Please try again.") ∧
  result_of (verifyOTPAndLogin unreachable "a@b.com" "123456") signedIn
    = Returns (failure "Login failed. Please try again.") ∧
  result_of (updateProfile unreachable ∅) signedIn
    = Returns (failure "Failed to update profile. Please try again.").
Proof.
  destruct (session_operations_catch_backend_exceptions unreachable signedIn)
    as (Hregister & Hverify & Hsend & Hlogin & _ & _ & Hupdate).
  refine (conj _ (conj _ (conj _ (conj _ _)))).
  - eapply (proj2 (Hregister _ _ _ _)). reflexivity.
  - eapply (proj2 (Hverify _ _)). reflexivity.
  - eapply (proj2 (Hsend _)). reflexivity.
  - eapply (proj2 (Hlogin _ _)). reflexivity.
  - eapply (proj2 (Hupdate _)); reflexivity.
Defined.

(** ** The dialog *)

(** Unfolds the primitives of the dialog. *)
Ltac dialog_unfold :=
  unfold update, toast, onOpenChange, setTimeout, setInterval, clearInterval,
    useAuth in *;
  eff_unfold.

(** Reads a field out of an object literal. *)
Ltac lookup_field :=
  repeat (rewrite lookup_insert_ne by discriminate);
  apply lookup_insert_eq.

Section DialogFacts.

Context {B : Type} (authService : AuthService B).

Implicit Types (s : Sys B) (d : Dialog) (w : World B).

Lemma initiate_returns isLogin d w :
  ∃ r w', initiate authService isLogin d w = (Returns r, w').
Proof.
  unfold initiate. destruct isLogin.
  - destruct (sendOTP_returns authService (email d) w) as [r Hr].
    exists r, (state_after (sendOTP authService (email d)) w).
    unfold result_of, state_after in *.
    destruct (sendOTP _ _ _); simpl in *; congruence.
  - destruct (registerUser_returns authService (email d) (fullName d)
                (role d) (profile d) w) as [r Hr].
    exists r, (state_after (registerUser authService (email d) (fullName d)
                              (role d) (profile d)) w).
    unfold result_of, state_after in *.
    destruct (registerUser _ _ _ _ _ _); simpl in *; congruence.
Qed.

(** [initiate] makes exactly its backend call and leaves the session
    alone. *)
Lemma initiate_frame isLogin d w :
  let w' := state_after (initiate authService isLogin d) w in
  w_user w' = w_user w ∧ localStorage w' = localStorage w ∧
  calls w' = calls w ++ [initiateCall isLogin d].
Proof.
  unfold initiate, initiateCall. destruct isLogin.
  - destruct (sendOTP_frame authService (email d) w) as (? & ? & _ & ?).
    auto.
  - destruct (registerUser_frame authService (email d) (fullName d)
                (role d) (profile d) w) as (? & ? & _ & ?).
    auto.
Qed.

(** An accepted request: the code view opens, the countdown starts at 60
    on a fresh interval. *)
Lemma handleSendOTP_accepted isLogin s r w' :
  validated isLogin (dialog s) = true →
  initiate authService isLogin (dialog s) (world s) = (Returns r, w') →
  success r = true →
  handleSendOTP authService isLogin s
    = (Returns tt,
       {| dialog := setIsLoading false (setTimer 60 (setStep Otp
                      (setIsLoading true (dialog s))));
          world := w';
          toasts := toasts s ++ [sentToast isLogin];
          openChanges := openChanges s; timeouts := timeouts s;
          intervals := nextHandle s :: intervals s;
          nextHandle := S (nextHandle s) |}).
Proof.
  unfold validated, initiate. intros Hvalid Hrun Hsuccess.
  apply andb_prop in Hvalid as [Hemail Hname].
  unfold handleSendOTP; dialog_unfold; simpl.
  rewrite Hemail; simpl.
  destruct isLogin; simpl in *.
  - rewrite Hrun; simpl. rewrite Hsuccess; simpl. reflexivity.
  - rewrite Hname; simpl. rewrite Hrun; simpl. rewrite Hsuccess; simpl.
    reflexivity.
Qed.

(** A refused request: the backend's message is shown, the form stays. *)
Lemma handleSendOTP_refused isLogin s r w' :
  validated isLogin (dialog s) = true →
  initiate authService isLogin (dialog s) (world s) = (Returns r, w') →
  success r = false →
  handleSendOTP authService isLogin s
    = (Returns tt,
       {| dialog := setIsLoading false (dialog s);
          world := w';
          toasts := toasts s ++ [refusedToast isLogin r];
          openChanges := openChanges s; timeouts := timeouts s;
          intervals := intervals s; nextHandle := nextHandle s |}).
Proof.
  unfold validated, initiate. intros Hvalid Hrun Hsuccess.
  apply andb_prop in Hvalid as [Hemail Hname].
  unfold handleSendOTP; dialog_unfold; simpl.
  rewrite Hemail; simpl.
  destruct isLogin; simpl in *.
  - rewrite Hrun; simpl. rewrite Hsuccess; simpl. reflexivity.
  - rewrite Hname; simpl. rewrite Hrun; simpl. rewrite Hsuccess; simpl.
    reflexivity.
Qed.

(** A missing field: a notification and nothing else. *)
Lemma handleSendOTP_invalid isLogin s :
  validated isLogin (dialog s) = false →
  handleSendOTP authService isLogin s
    = (Returns tt,
       {| dialog := dialog s; world := world s;
          toasts := toasts s ++ [requiredToast isLogin (dialog s)];
          openChanges := openChanges s; timeouts := timeouts s;
          intervals := intervals s; nextHandle := nextHandle s |}).
Proof.
  unfold validated, requiredToast. intros Hvalid.
  unfold handleSendOTP; dialog_unfold; simpl.
  destruct (truthy (email (dialog s))); simpl in *; [|reflexivity].
  destruct isLogin; simpl in *; [discriminate|].
  rewrite Hvalid. reflexivity.
Qed.

(** [handleSendOTP] returns normally and makes its backend call exactly
    when the validation passes. *)
Lemma handleSendOTP_calls isLogin s :
  calls (world (state_after (handleSendOTP authService isLogin) s))
    = calls (world s)
      ++ (if validated isLogin (dialog s)
          then [initiateCall isLogin (dialog s)] else []).
Proof.
  destruct (validated isLogin (dialog s)) eqn:Hvalid.
  - destruct (initiate_returns isLogin (dialog s) (world s))
      as (r & w' & Hrun).
    pose proof (initiate_frame isLogin (dialog s) (world s)) as Hframe.
    unfold state_after in *. rewrite Hrun in Hframe. simpl in Hframe.
    destruct Hframe as (_ & _ & Hcalls).
    destruct (success r) eqn:Hsuccess.
    + rewrite (handleSendOTP_accepted _ _ _ _ Hvalid Hrun Hsuccess).
      exact Hcalls.
    + rewrite (handleSendOTP_refused _ _ _ _ Hvalid Hrun Hsuccess).
      exact Hcalls.
  - unfold state_after. rewrite (handleSendOTP_invalid _ _ Hvalid). simpl.
    symmetry. apply app_nil_r.
Qed.

(** C7: a registration attempt that passes the validation makes one
    [registerUser] call, whose profile has exactly the fields of the
    selected role, filled from the form: [phone], [dateOfBirth], [address]
    for a patient; [phone], [specialization], [licenseNumber],
    [experience] for a doctor; and no field proper to one shape occurs
    together with a field proper to the other. *)
Theorem registration_profile_has_fields_of_role s :
  validated false (dialog s) = true →
  let d := dialog s in
  let p := profile d in
  calls (world (state_after (handleSendOTP authService false) s))
    = calls (world s) ++ [RegisterUser (email d) (fullName d) (role d) p] ∧
  dom p = (if decide (role d = Patient) then patientFields else doctorFields) ∧
  p !! "phone" = Some (JsString (phone d)) ∧
  (role d = Patient →
     p !! "dateOfBirth" = Some (JsString (dateOfBirth d)) ∧
     p !! "address" = Some (JsString (address d))) ∧
  (role d = Doctor →
     p !! "specialization" = Some (JsString (specialization d)) ∧
     p !! "licenseNumber" = Some (JsString (licenseNumber d)) ∧
     p !! "experience" = Some (JsNumber (or_zero (parseInt (experience d))))) ∧
  ¬ (("dateOfBirth" ∈ dom p ∨ "address" ∈ dom p) ∧
     ("specialization" ∈ dom p ∨ "licenseNumber" ∈ dom p ∨
      "experience" ∈ dom p)).
Proof.
  intros Hvalid d p.
  split.
  { rewrite handleSendOTP_calls, Hvalid. reflexivity. }
  assert (Hdom : dom p
            = if decide (role d = Patient) then patientFields
              else doctorFields).
  { unfold p, profile, patientFields, doctorFields.
    destruct (decide (role d = Patient));
      rewrite !dom_insert_L, dom_empty_L; set_solver. }
  split; [exact Hdom|].
  split.
  { unfold p, profile. destruct (decide (role d = Patient));
      apply lookup_insert_eq. }
  split.
  { intros Hrole. unfold p, profile. rewrite decide_True by exact Hrole.
    split; lookup_field. }
  split.
  { intros Hrole. unfold p, profile.
    rewrite decide_False by (rewrite Hrole; discriminate).
    repeat split; lookup_field. }
  rewrite Hdom. unfold patientFields, doctorFields.
  destruct (decide (role d = Patient));
    rewrite !elem_of_union, !elem_of_singleton;
    intros [Hpatient Hdoctor]; intuition discriminate.
Qed.

(** C8: while the cooldown timer is above 0, [handleResendOTP] returns
    with the state untouched (so no backend call is recorded); at 0 it is
    [handleSendOTP] on the same state, in the flow of the active tab. *)
Theorem resend_is_noop_while_cooldown s :
  (0 < timer (dialog s) → handleResendOTP authService s = (Returns tt, s)) ∧
  (timer (dialog s) = 0 →
     handleResendOTP authService s
       = handleSendOTP authService
           (bool_decide (activeTab (dialog s) = Login)) s).
Proof.
  split; intros Htimer; unfold handleResendOTP; eff_unfold; simpl.
  - destruct (Z.eqb_spec (timer (dialog s)) 0); [lia|reflexivity].
  - rewrite Htimer. reflexivity.
Qed.

Lemma verify_returns d w :
  ∃ r w', verify authService d w = (Returns r, w').
Proof.
  unfold verify. destruct (decide (activeTab d = Register)).
  - destruct (verifyRegistration_returns authService (email d) (otp d) w)
      as [r Hr].
    exists r, (state_after (verifyRegistration authService (email d) (otp d)) w).
    unfold result_of, state_after in *.
    destruct (verifyRegistration _ _ _ _); simpl in *; congruence.
  - destruct (verifyOTPAndLogin_returns authService (email d) (otp d) w)
      as [r Hr].
    exists r, (state_after (verifyOTPAndLogin authService (email d) (otp d)) w).
    unfold result_of, state_after in *.
    destruct (verifyOTPAndLogin _ _ _ _); simpl in *; congruence.
Qed.

Lemma verify_calls d w :
  calls (state_after (verify authService d) w) = calls w ++ [verifyCall d].
Proof.
  unfold verify, verifyCall. destruct (decide (activeTab d = Register)).
  - apply verifyRegistration_calls.
  - apply verifyOTPAndLogin_calls.
Qed.

(** A code that is not 6 characters long: a notification and nothing
    else. *)
Lemma handleVerifyOTP_blocked s :
  String.length (otp (dialog s)) ≠ 6%nat →
  handleVerifyOTP authService s
    = (Returns tt,
       {| dialog := dialog s; world := world s;
          toasts := toasts s
                    ++ [invalidOtpToast "Please enter a valid 6-digit OTP."];
          openChanges := openChanges s; timeouts := timeouts s;
          intervals := intervals s; nextHandle := nextHandle s |}).
Proof.
  intros Hlength. unfold handleVerifyOTP; dialog_unfold; simpl.
  destruct (Nat.eqb_spec (String.length (otp (dialog s))) 6);
    [contradiction|reflexivity].
Qed.

(** An accepted code: the dialog closes, the form is reset and the
    navigation is scheduled. *)
Lemma handleVerifyOTP_accepted s r w' :
  String.length (otp (dialog s)) = 6%nat →
  verify authService (dialog s) (world s) = (Returns r, w') →
  success r = true →
  handleVerifyOTP authService s
    = (Returns tt,
       {| dialog := setIsLoading false
                      (resetForm (setIsLoading true (dialog s)));
          world := w';
          toasts := toasts s ++ [welcomeToast (dialog s)];
          openChanges := openChanges s ++ [false];
          timeouts := timeouts s
                      ++ [redirect (dialog s) (w_user (world s))];
          intervals := intervals s; nextHandle := nextHandle s |}).
Proof.
  intros Hlength Hrun Hsuccess.
  unfold handleVerifyOTP; dialog_unfold; simpl.
  rewrite Hlength; simpl.
  unfold verify, welcomeToast, redirect in *.
  destruct (decide (activeTab (dialog s) = Register)) as [Htab|Htab].
  - rewrite bool_decide_eq_true_2 by exact Htab. simpl.
    rewrite Hrun; simpl. rewrite Hsuccess; simpl. reflexivity.
  - rewrite bool_decide_eq_false_2 by exact Htab. simpl.
    rewrite Hrun; simpl. rewrite Hsuccess; simpl. reflexivity.
Qed.

(** A rejected code: the backend's message is shown, the code view and
    the typed code stay. *)
Lemma handleVerifyOTP_rejected s r w' :
  String.length (otp (dialog s)) = 6%nat →
  verify authService (dialog s) (world s) = (Returns r, w') →
  success r = false →
  handleVerifyOTP authService s
    = (Returns tt,
       {| dialog := setIsLoading false (dialog s);
          world := w';
          toasts := toasts s ++ [invalidOtpToast (message r)];
          openChanges := openChanges s; timeouts := timeouts s;
          intervals := intervals s; nextHandle := nextHandle s |}).
Proof.
  intros Hlength Hrun Hsuccess.
  unfold handleVerifyOTP; dialog_unfold; simpl.
  rewrite Hlength; simpl.
  unfold verify in *.
  destruct (decide (activeTab (dialog s) = Register)) as [Htab|Htab].
  - rewrite bool_decide_eq_true_2 by exact Htab. simpl.
    rewrite Hrun; simpl. rewrite Hsuccess; simpl. reflexivity.
  - rewrite bool_decide_eq_false_2 by exact Htab. simpl.
    rewrite Hrun; simpl. rewrite Hsuccess; simpl. reflexivity.
Qed.

(** [handleVerifyOTP] makes its backend call exactly when the stored code
    is 6 characters long. *)
Lemma handleVerifyOTP_calls s :
  calls (world (state_after (handleVerifyOTP authService) s))
    = calls (world s)
      ++ (if (String.length (otp (dialog s)) =? 6)%nat
          then [verifyCall (dialog s)] else []).
Proof.
  destruct (Nat.eqb_spec (String.length (otp (dialog s))) 6)
    as [Hlength|Hlength].
  - destruct (verify_returns (dialog s) (world s)) as (r & w' & Hrun).
    pose proof (verify_calls (dialog s) (world s)) as Hcalls.
    unfold state_after in *. rewrite Hrun in Hcalls. simpl in Hcalls.
    destruct (success r) eqn:Hsuccess.
    + rewrite (handleVerifyOTP_accepted _ _ _ Hlength Hrun Hsuccess).
      exact Hcalls.
    + rewrite (handleVerifyOTP_rejected _ _ _ Hlength Hrun Hsuccess).
      exact Hcalls.
  - unfold state_after. rewrite (handleVerifyOTP_blocked _ Hlength). simpl.
    symmetry. apply app_nil_r.
Qed.

(** *** The countdown *)

Lemma intervalTick_counting h s :
  h ∈ intervals s → 1 < timer (dialog s) →
  intervalTick h s
    = (Returns tt,
       {| dialog := setTimer (timer (dialog s) - 1) (dialog s);
          world := world s; toasts := toasts s;
          openChanges := openChanges s; timeouts := timeouts s;
          intervals := intervals s; nextHandle := nextHandle s |}).
Proof.
  intros Hactive Htimer. unfold intervalTick; dialog_unfold; simpl.
  rewrite bool_decide_eq_true_2 by exact Hactive.
  destruct (Z.leb_spec (timer (dialog s)) 1); [lia|reflexivity].
Qed.

Lemma intervalTick_stopping h s :
  h ∈ intervals s → timer (dialog s) ≤ 1 →
  intervalTick h s
    = (Returns tt,
       {| dialog := setTimer 0 (dialog s);
          world := world s; toasts := toasts s;
          openChanges := openChanges s; timeouts := timeouts s;
          intervals := filter (λ i, i ≠ h) (intervals s);
          nextHandle := nextHandle s |}).
Proof.
  intros Hactive Htimer. unfold intervalTick; dialog_unfold; simpl.
  rewrite bool_decide_eq_true_2 by exact Hactive.
  destruct (Z.leb_spec (timer (dialog s)) 1); [reflexivity|lia].
Qed.

Lemma intervalTick_cleared h s :
  h ∉ intervals s → intervalTick h s = (Returns tt, s).
Proof.
  intros Hcleared. unfold intervalTick; dialog_unfold; simpl.
  rewrite bool_decide_eq_false_2 by exact Hcleared. reflexivity.
Qed.

(** One firing of an interval, running or not, in one formula. *)
Lemma intervalTick_timer h s :
  timer (dialog (state_after (intervalTick h) s))
    = if bool_decide (h ∈ intervals s)
      then Z.max 0 (timer (dialog s) - 1)
      else timer (dialog s).
Proof.
  unfold state_after.
  destruct (decide (h ∈ intervals s)) as [Hactive|Hcleared].
  - rewrite bool_decide_eq_true_2 by exact Hactive.
    destruct (Z.le_gt_cases (timer (dialog s)) 1) as [Hlast|Hmore].
    + rewrite (intervalTick_stopping _ _ Hactive Hlast). simpl. lia.
    + rewrite (intervalTick_counting _ _ Hactive Hmore). simpl. lia.
  - rewrite bool_decide_eq_false_2 by exact Hcleared.
    rewrite (intervalTick_cleared _ _ Hcleared). reflexivity.
Qed.

Lemma cleared_after_stopping h (l : list nat) : h ∉ filter (λ i, i ≠ h) l.
Proof. rewrite list_elem_of_filter. tauto. Qed.

(** *** The states of a mounted dialog *)

Lemma run_snoc es e s :
  run authService (es ++ [e]) s
    = after authService e (run authService es s).
Proof. unfold run. rewrite foldl_app. reflexivity. Qed.

Lemma strip_non_digits_all_digits v : all_digits (strip_non_digits v) = true.
Proof.
  induction v as [|c v IH]; simpl; [reflexivity|].
  destruct (is_digit c) eqn:Hc; simpl; [rewrite Hc|]; exact IH.
Qed.

Lemma slice_0_all_digits n v :
  all_digits v = true → all_digits (slice_0 n v) = true.
Proof.
  revert v. induction n as [|n IH]; intros [|c v]; simpl; auto.
  intros [Hc Hv]%andb_prop. rewrite Hc. simpl. auto.
Qed.

Lemma slice_0_length n v : (String.length (slice_0 n v) ≤ n)%nat.
Proof.
  revert v. induction n as [|n IH]; intros [|c v]; simpl; try lia.
  specialize (IH v). lia.
Qed.

(** The shapes the cells can have after [handleSendOTP]. *)
Lemma handleSendOTP_dialog isLogin s :
  let d' := dialog (state_after (handleSendOTP authService isLogin) s) in
  d' = dialog s ∨ d' = setIsLoading false (dialog s) ∨
  d' = setIsLoading false (setTimer 60 (setStep Otp
         (setIsLoading true (dialog s)))).
Proof.
  unfold state_after.
  destruct (validated isLogin (dialog s)) eqn:Hvalid.
  - destruct (initiate_returns isLogin (dialog s) (world s))
      as (r & w' & Hrun).
    destruct (success r) eqn:Hsuccess.
    + rewrite (handleSendOTP_accepted _ _ _ _ Hvalid Hrun Hsuccess). auto.
    + rewrite (handleSendOTP_refused _ _ _ _ Hvalid Hrun Hsuccess). auto.
  - rewrite (handleSendOTP_invalid _ _ Hvalid). auto.
Qed.

(** The shapes the cells can have after [handleVerifyOTP]. *)
Lemma handleVerifyOTP_dialog s :
  let d' := dialog (state_after (handleVerifyOTP authService) s) in
  d' = dialog s ∨ d' = setIsLoading false (dialog s) ∨
  d' = setIsLoading false (resetForm (setIsLoading true (dialog s))).
Proof.
  unfold state_after.
  destruct (Nat.eq_dec (String.length (otp (dialog s))) 6%nat)
    as [Hlength|Hlength].
  - destruct (verify_returns (dialog s) (world s)) as (r & w' & Hrun).
    destruct (success r) eqn:Hsuccess.
    + rewrite (handleVerifyOTP_accepted _ _ _ Hlength Hrun Hsuccess). auto.
    + rewrite (handleVerifyOTP_rejected _ _ _ Hlength Hrun Hsuccess). auto.
  - rewrite (handleVerifyOTP_blocked _ Hlength). auto.
Qed.

Lemma well_formed_initial defaultTab : well_formed (initialDialog defaultTab).
Proof. unfold well_formed; simpl. repeat split; auto; lia. Qed.

Lemma well_formed_sent d :
  well_formed d →
  well_formed (setIsLoading false (setTimer 60 (setStep Otp
                 (setIsLoading true d)))).
Proof.
  unfold well_formed; simpl. intros (Hdigits & Hlength & _ & _).
  repeat split; auto; try lia; discriminate.
Qed.

Lemma well_formed_reset d :
  well_formed (setIsLoading false (resetForm (setIsLoading true d))).
Proof. unfold well_formed; simpl. repeat split; auto; lia. Qed.

Lemma well_formed_typed value d :
  well_formed d → step d = Otp → well_formed (otpOnChange value d).
Proof.
  intros (_ & _ & Htimer & _) Hstep.
  unfold well_formed, otpOnChange, setOtp; cbn [otp timer step].
  split; [apply slice_0_all_digits, strip_non_digits_all_digits|].
  split; [apply slice_0_length|].
  split; [exact Htimer|].
  rewrite Hstep. discriminate.
Qed.

Lemma handleSendOTP_well_formed isLogin s :
  well_formed (dialog s) →
  well_formed (dialog (state_after (handleSendOTP authService isLogin) s)).
Proof.
  intros Hwf.
  destruct (handleSendOTP_dialog isLogin s) as [Hd|[Hd|Hd]]; rewrite Hd.
  - exact Hwf.
  - exact Hwf.
  - apply well_formed_sent, Hwf.
Qed.

(** Every event keeps the cells well formed. *)
Lemma after_well_formed e s :
  well_formed (dialog s) → well_formed (dialog (after authService e s)).
Proof.
  intros Hwf. unfold after.
  destruct (rendered e (dialog s)) eqn:Hrendered; [|exact Hwf].
  destruct e; simpl in Hrendered;
    try (apply bool_decide_eq_true_1 in Hrendered);
    try exact Hwf.
  - (* ChangeOtp *)
    change (well_formed (otpOnChange value (dialog s))).
    apply well_formed_typed; assumption.
  - (* ClickSend *)
    apply handleSendOTP_well_formed, Hwf.
  - (* ClickVerify *)
    simpl. destruct (handleVerifyOTP_dialog s) as [Hd|[Hd|Hd]]; rewrite Hd.
    + exact Hwf.
    + exact Hwf.
    + apply well_formed_reset.
  - (* ClickResend *)
    simpl. unfold handleResendOTP; eff_unfold; simpl.
    destruct (timer (dialog s) =? 0).
    + apply handleSendOTP_well_formed, Hwf.
    + exact Hwf.
  - (* ClickBack *)
    unfold well_formed; simpl. repeat split; auto; lia.
  - (* Tick *)
    simpl. unfold state_after.
    destruct (decide (handle ∈ intervals s)) as [Hactive|Hcleared].
    + destruct (Z.le_gt_cases (timer (dialog s)) 1) as [Hlast|Hmore].
      * rewrite (intervalTick_stopping _ _ Hactive Hlast).
        destruct Hwf as (Hdigits & Hlength & Htimer & Hform).
        unfold well_formed; simpl.
        split; [exact Hdigits|]. split; [exact Hlength|].
        split; [lia|]. intros Hstep.
        destruct (Hform Hstep) as [Hotp _]. auto.
      * rewrite (intervalTick_counting _ _ Hactive Hmore).
        destruct Hwf as (Hdigits & Hlength & Htimer & Hform).
        unfold well_formed; simpl.
        split; [exact Hdigits|]. split; [exact Hlength|].
        split; [lia|]. intros Hstep.
        destruct (Hform Hstep) as [_ Hzero]. lia.
    + rewrite (intervalTick_cleared _ _ Hcleared). exact Hwf.
Qed.

(** The cells of every reachable state are well formed. *)
Lemma reachable_well_formed s :
  reachable authService s → well_formed (dialog s).
Proof.
  intros (defaultTab & w & es & ->).
  induction es as [|e es IH] using rev_ind.
  - apply well_formed_initial.
  - rewrite run_snoc. apply after_well_formed, IH.
Qed.

Lemma run_well_formed es s :
  well_formed (dialog s) → well_formed (dialog (run authService es s)).
Proof.
  intros Hwf. induction es as [|e es IH] using rev_ind.
  - exact Hwf.
  - rewrite run_snoc. apply after_well_formed, IH.
Qed.

Lemma snoc_neq {A} (l : list A) (x : A) : l ++ [x] ≠ l.
Proof.
  intros Heq. apply (f_equal length) in Heq.
  rewrite length_app in Heq. simpl in Heq. lia.
Qed.

(** C3: the code field stores what was typed with every non-digit removed
    and cut to 6 characters, so a stored code is made of at most 6 digits;
    and on every state of a mounted dialog [handleVerifyOTP] calls the
    backend (the verification of the active tab, with the stored email and
    code) if and only if the stored code is exactly 6 digits. Otherwise it
    makes no call and leaves the cells of the dialog, its step among them,
    and the session context as they were. *)
Theorem verify_calls_backend_iff_six_digits s :
  reachable authService s →
  let d := dialog s in
  let s' := state_after (handleVerifyOTP authService) s in
  (∀ typed,
     let stored := otp (otpOnChange typed d) in
     stored = slice_0 6 (strip_non_digits typed) ∧
     all_digits stored = true ∧ (String.length stored ≤ 6)%nat) ∧
  (calls (world s') ≠ calls (world s) ↔ six_digits (otp d) = true) ∧
  (six_digits (otp d) = true →
     calls (world s') = calls (world s) ++ [verifyCall d]) ∧
  (six_digits (otp d) = false →
     calls (world s') = calls (world s) ∧ world s' = world s ∧
     dialog s' = d ∧ step (dialog s') = step d).
Proof.
  intros Hreachable d s'.
  destruct (reachable_well_formed s Hreachable) as (Hdigits & _).
  assert (Hsix : six_digits (otp d) = (String.length (otp d) =? 6)%nat).
  { unfold six_digits, d. rewrite Hdigits. reflexivity. }
  pose proof (handleVerifyOTP_calls s) as Hcalls. fold s' d in Hcalls.
  split.
  { intros typed stored. unfold stored, otpOnChange, setOtp; cbn [otp].
    split; [reflexivity|].
    split; [apply slice_0_all_digits, strip_non_digits_all_digits|].
    apply slice_0_length. }
  rewrite Hsix.
  destruct (Nat.eqb_spec (String.length (otp d)) 6) as [Hlength|Hlength].
  - split; [|split]; [| |discriminate].
    + split; [reflexivity|]. intros _. rewrite Hcalls. apply snoc_neq.
    + intros _. exact Hcalls.
  - rewrite app_nil_r in Hcalls.
    split; [|split]; [|discriminate|].
    + split; [|discriminate]. intros Hchanged. contradiction.
    + intros _. unfold s', state_after.
      rewrite (handleVerifyOTP_blocked s Hlength). simpl. auto.
Qed.

(** *** Counting down *)

Lemma run_ticks_cleared h n s :
  h ∉ intervals s → run authService (replicate n (Tick h)) s = s.
Proof.
  intros Hcleared. induction n as [|n IH]; [reflexivity|].
  simpl. unfold run in *. simpl. unfold after at 2. simpl.
  unfold state_after. rewrite (intervalTick_cleared _ _ Hcleared).
  exact IH.
Qed.

(** [n] ticks of a running interval take the timer from [t] to
    [max 0 (t - n)]; the interval is cleared by the tick that reaches 0. *)
Lemma run_ticks_running h n s :
  h ∈ intervals s → 1 ≤ timer (dialog s) →
  let s' := run authService (replicate n (Tick h)) s in
  timer (dialog s') = Z.max 0 (timer (dialog s) - Z.of_nat n) ∧
  (timer (dialog s) ≤ Z.of_nat n → h ∉ intervals s').
Proof.
  revert s. induction n as [|n IH]; intros s Hactive Htimer.
  - simpl. split; lia.
  - cbn zeta. change (run authService (replicate (S n) (Tick h)) s)
      with (run authService (replicate n (Tick h))
              (state_after (intervalTick h) s)).
    unfold state_after.
    destruct (Z.le_gt_cases (timer (dialog s)) 1) as [Hlast|Hmore].
    + rewrite (intervalTick_stopping _ _ Hactive Hlast); simpl.
      rewrite run_ticks_cleared by apply cleared_after_stopping.
      simpl. split; [lia|]. intros _. apply cleared_after_stopping.
    + rewrite (intervalTick_counting _ _ Hactive Hmore); simpl.
      match goal with
      | |- context [run authService _ ?s1] =>
          destruct (IH s1) as [Hvalue Hstop]; [exact Hactive|simpl; lia|]
      end.
      simpl in *. split; [rewrite Hvalue; lia|].
      intros Hn. apply Hstop. lia.
Qed.

(** C6: an accepted [handleSendOTP] sets the timer to 60 and starts an
    interval; each of its first 60 ticks takes 1 off the timer, the 60th
    reaches 0 and clears the interval, and from there on a tick changes
    nothing: the timer stays at 0. Whatever happens next to the dialog,
    the timer is never negative, and a tick of any interval takes exactly
    1 off a positive timer when the interval is running and leaves the
    timer as it is otherwise. *)
Theorem cooldown_counts_down_from_60 isLogin s r w' :
  well_formed (dialog s) →
  validated isLogin (dialog s) = true →
  initiate authService isLogin (dialog s) (world s) = (Returns r, w') →
  success r = true →
  let s1 := state_after (handleSendOTP authService isLogin) s in
  let ticks n := run authService (replicate n (Tick (nextHandle s))) s1 in
  timer (dialog s1) = 60 ∧ step (dialog s1) = Otp ∧
  nextHandle s ∈ intervals s1 ∧
  (∀ n, timer (dialog (ticks n)) = Z.max 0 (60 - Z.of_nat n)) ∧
  (∀ n, (n < 60)%nat →
        timer (dialog (ticks (S n))) = timer (dialog (ticks n)) - 1) ∧
  (∀ n, (60 ≤ n)%nat →
        timer (dialog (ticks n)) = 0 ∧
        (nextHandle s ∉ intervals (ticks n)) ∧
        ticks (S n) = ticks n) ∧
  (∀ es h,
     let s2 := run authService es s1 in
     0 ≤ timer (dialog s2) ∧
     timer (dialog (after authService (Tick h) s2))
       = if bool_decide (h ∈ intervals s2)
         then Z.max 0 (timer (dialog s2) - 1)
         else timer (dialog s2)).
Proof.
  intros Hwf Hvalid Hrun Hsuccess s1 ticks.
  assert (Hs1 : timer (dialog s1) = 60 ∧ step (dialog s1) = Otp ∧
                nextHandle s ∈ intervals s1).
  { unfold s1, state_after.
    rewrite (handleSendOTP_accepted _ _ _ _ Hvalid Hrun Hsuccess). simpl.
    repeat split. apply list_elem_of_here. }
  destruct Hs1 as (Htimer & Hstep & Hactive).
  assert (Hticks : ∀ n,
            timer (dialog (ticks n)) = Z.max 0 (60 - Z.of_nat n) ∧
            (60 ≤ Z.of_nat n → nextHandle s ∉ intervals (ticks n))).
  { intros n.
    assert (Hpositive : 1 ≤ timer (dialog s1)) by lia.
    destruct (run_ticks_running (nextHandle s) n s1 Hactive Hpositive)
      as [Hvalue Hstop].
    rewrite Htimer in *. auto. }
  split; [exact Htimer|]. split; [exact Hstep|]. split; [exact Hactive|].
  split; [intros n; apply Hticks|].
  split.
  { intros n Hn. rewrite !(proj1 (Hticks _)). lia. }
  split.
  { intros n Hn. destruct (Hticks n) as [Hvalue Hstop].
    split; [rewrite Hvalue; lia|].
    split; [apply Hstop; lia|].
    unfold ticks. replace (S n) with (n + 1)%nat by lia.
    rewrite replicate_add. simpl. rewrite run_snoc.
    unfold after. simpl. unfold state_after.
    rewrite intervalTick_cleared; [reflexivity|]. apply Hstop. lia. }
  intros es h s2.
  assert (Hwf1 : well_formed (dialog s1)).
  { apply handleSendOTP_well_formed, Hwf. }
  destruct (run_well_formed es s1 Hwf1) as (_ & _ & Hrange & _).
  split; [apply Hrange|]. apply intervalTick_timer.
Qed.

(** *** Back, then the same request again *)

(** The session context turns the backend's answer into its result: a
    rejection becomes the fixed failure object. *)
Lemma initiate_result isLogin d w :
  result_of (initiate authService isLogin d) w
    = match answer authService isLogin d (backend w) with
      | Returns r => Returns r
      | Throws _ =>
          Returns (failure (if isLogin
                            then "Failed to send OTP. Please try again."
                            else "Registration failed. Please try again."))
      end.
Proof.
  unfold initiate, answer. destruct isLogin.
  - unfold sendOTP; provider_unfold.
    destruct (svc_sendOTP _ _ _) as [[r|e] b']; reflexivity.
  - unfold registerUser; provider_unfold.
    destruct (svc_registerUser _ _ _ _ _ _) as [[r|e] b']; reflexivity.
Qed.

(** Two runs of [initiate] the backend answers alike give the same
    result. *)
Lemma initiate_same_answer isLogin d w1 w2 r1 r2 w1' w2' :
  answer authService isLogin d (backend w2)
    = answer authService isLogin d (backend w1) →
  initiate authService isLogin d w1 = (Returns r1, w1') →
  initiate authService isLogin d w2 = (Returns r2, w2') →
  r2 = r1.
Proof.
  intros Hanswer Hrun1 Hrun2.
  pose proof (initiate_result isLogin d w1) as Hres1.
  pose proof (initiate_result isLogin d w2) as Hres2.
  unfold result_of in *. rewrite Hrun1 in Hres1. rewrite Hrun2 in Hres2.
  simpl in *. rewrite Hanswer in Hres2. congruence.
Qed.

(** [handleBackToForm] on a form view without code or cooldown changes
    nothing. *)
Lemma handleBackToForm_on_form d :
  step d = Form → otp d = "" → timer d = 0 → handleBackToForm d = d.
Proof.
  destruct d; simpl. intros -> -> ->. reflexivity.
Qed.

(** The cells after a request is accepted, the user goes back and the
    request is accepted again. *)
Lemma cells_sent_again d :
  otp d = "" →
  let d1 := setIsLoading false (setTimer 60 (setStep Otp
              (setIsLoading true d))) in
  draft (handleBackToForm d1) = draft d ∧
  setIsLoading false (setTimer 60 (setStep Otp
    (setIsLoading true (handleBackToForm d1)))) = d1.
Proof.
  destruct d; cbn. intros ->. split; reflexivity.
Qed.

(** C9: from a form view, send the request, go back with
    [handleBackToForm], and send it again. Going back restores the form
    view with the draft as it was (step [form], no code, no cooldown);
    the second [handleSendOTP] makes the same backend call with the same
    arguments as the first and, the backend answering it as it answered the
    first, shows the same notification and leaves the cells of the dialog
    (step, timer, code, draft) as the first attempt left them. *)
Theorem back_then_initiate_repeats_first_attempt isLogin s0 :
  step (dialog s0) = Form → otp (dialog s0) = "" → timer (dialog s0) = 0 →
  let s1 := state_after (handleSendOTP authService isLogin) s0 in
  let s2 := state_after (update handleBackToForm) s1 in
  let s3 := state_after (handleSendOTP authService isLogin) s2 in
  let cs := if validated isLogin (dialog s0)
            then [initiateCall isLogin (dialog s0)] else [] in
  answer authService isLogin (dialog s0) (backend (world s2))
    = answer authService isLogin (dialog s0) (backend (world s0)) →
  (step (dialog s2) = Form ∧ otp (dialog s2) = "" ∧ timer (dialog s2) = 0 ∧
   draft (dialog s2) = draft (dialog s0) ∧
   activeTab (dialog s2) = activeTab (dialog s0) ∧
   world s2 = world s1) ∧
  (calls (world s1) = calls (world s0) ++ cs ∧
   calls (world s3) = calls (world s2) ++ cs) ∧
  (∃ ts, toasts s1 = toasts s0 ++ ts ∧ toasts s3 = toasts s2 ++ ts) ∧
  dialog s3 = dialog s1.
Proof.
  intros Hstep Hotp Htimer s1 s2 s3 cs Hanswer.
  subst cs. unfold s3, s2, s1, state_after in *. clear s1 s2 s3.
  destruct (validated isLogin (dialog s0)) eqn:Hvalid.
  - destruct (initiate_returns isLogin (dialog s0) (world s0))
      as (r & w1 & Hrun1).
    pose proof (initiate_frame isLogin (dialog s0) (world s0)) as Hframe1.
    unfold state_after in Hframe1. rewrite Hrun1 in Hframe1.
    destruct Hframe1 as (_ & _ & Hcalls1). cbn [snd] in Hcalls1.
    destruct (initiate_returns isLogin (dialog s0) w1) as (r2 & w3 & Hrun2).
    pose proof (initiate_frame isLogin (dialog s0) w1) as Hframe2.
    unfold state_after in Hframe2. rewrite Hrun2 in Hframe2.
    destruct Hframe2 as (_ & _ & Hcalls2). cbn [snd] in Hcalls2.
    destruct (success r) eqn:Hsuccess.
    + rewrite (handleSendOTP_accepted _ _ _ _ Hvalid Hrun1 Hsuccess) in *.
      cbn [snd update modify dialog world toasts] in *.
      assert (r2 = r) as ->
        by exact (initiate_same_answer _ _ _ _ _ _ _ _ Hanswer Hrun1 Hrun2).
      erewrite (handleSendOTP_accepted isLogin _ r w3);
        [|exact Hvalid|exact Hrun2|exact Hsuccess].
      cbn [snd dialog world toasts].
      destruct (cells_sent_again (dialog s0) Hotp) as [Hdraft Hcells].
      split; [repeat split; exact Hdraft|].
      split; [split; assumption|].
      split; [exists [sentToast isLogin]; split; reflexivity|].
      exact Hcells.
    + rewrite (handleSendOTP_refused _ _ _ _ Hvalid Hrun1 Hsuccess) in *.
      cbn [snd update modify dialog world toasts] in *.
      rewrite (handleBackToForm_on_form (setIsLoading false (dialog s0)))
        in * by assumption.
      assert (r2 = r) as ->
        by exact (initiate_same_answer _ _ _ _ _ _ _ _ Hanswer Hrun1 Hrun2).
      erewrite (handleSendOTP_refused isLogin _ r w3);
        [|exact Hvalid|exact Hrun2|exact Hsuccess].
      cbn [snd dialog world toasts].
      split; [repeat split; assumption|].
      split; [split; assumption|].
      split; [exists [refusedToast isLogin r]; split; reflexivity|].
      reflexivity.
  - rewrite (handleSendOTP_invalid _ _ Hvalid) in *.
    cbn [snd update modify dialog world toasts] in *.
    rewrite (handleBackToForm_on_form (dialog s0)) in * by assumption.
    erewrite (handleSendOTP_invalid isLogin _); [|exact Hvalid].
    cbn [snd dialog world toasts]. rewrite !app_nil_r.
    split; [repeat split; assumption|].
    split; [split; reflexivity|].
    split; [|reflexivity].
    exists [requiredToast isLogin (dialog s0)]; split; reflexivity.
Qed.

(** *** Closing and resetting *)

Lemma resetForm_after_loading d :
  setIsLoading false (resetForm (setIsLoading true d))
    = setIsLoading false (resetForm d).
Proof. reflexivity. Qed.

(** C2 (as amended): [resetForm] puts the email, full name, phone,
    date of birth, address, specialization, license number and experience
    of the draft, the code and the cooldown timer back to their defaults
    and the step back to [form]; the selected role and the active tab keep
    their values; the session context is not touched. It is what
    [handleVerifyOTP] runs when it closes the dialog. *)
Theorem resetForm_clears_all_but_role s :
  let d := dialog s in
  let s' := state_after (update resetForm) s in
  let d' := dialog s' in
  let closed := state_after (handleVerifyOTP authService) s in
  (email d' = "" ∧ fullName d' = "" ∧ phone d' = "" ∧ dateOfBirth d' = "" ∧
   address d' = "" ∧ specialization d' = "" ∧ licenseNumber d' = "" ∧
   experience d' = "") ∧
  otp d' = "" ∧ timer d' = 0 ∧ step d' = Form ∧
  role d' = role d ∧ activeTab d' = activeTab d ∧
  world s' = world s ∧
  (openChanges closed ≠ openChanges s →
     openChanges closed = openChanges s ++ [false] ∧
     dialog closed = setIsLoading false (resetForm d) ∧
     step (dialog closed) = Form ∧ role (dialog closed) = role d).
Proof.
  intros d s' d' closed.
  split; [repeat split|].
  do 6 (split; [reflexivity|]).
  intros Hclosed. unfold closed, state_after in *.
  destruct (Nat.eq_dec (String.length (otp (dialog s))) 6%nat)
    as [Hlength|Hlength].
  - destruct (verify_returns (dialog s) (world s)) as (r & w' & Hrun).
    destruct (success r) eqn:Hsuccess.
    + rewrite (handleVerifyOTP_accepted _ _ _ Hlength Hrun Hsuccess).
      cbn [snd openChanges dialog]. rewrite resetForm_after_loading.
      repeat split.
    + rewrite (handleVerifyOTP_rejected _ _ _ Hlength Hrun Hsuccess)
        in Hclosed.
      contradiction.
  - rewrite (handleVerifyOTP_blocked _ Hlength) in Hclosed. contradiction.
Qed.

(** *** Registration of a doctor *)

(** C5: when the backend answers [verifyRegistration] with [success] true,
    a user and a (non-empty) token, the session user becomes that user, the
    token is stored under [healthvault_token] and the answer is returned as
    it is. Run from the code view of a registration with role doctor,
    [handleVerifyOTP] then closes the dialog and schedules the navigation
    to the doctor dashboard, having made that one backend call and no
    other. *)
Theorem verifyRegistration_signs_in mail code w r u t b' :
  svc_verifyRegistration authService mail code (backend w) = (Returns r, b') →
  success r = true → user r = Some u → token r = Some t → truthy t = true →
  let w' := state_after (verifyRegistration authService mail code) w in
  result_of (verifyRegistration authService mail code) w = Returns r ∧
  w_user w' = Some u ∧
  localStorage w' !! "healthvault_token" = Some t ∧
  (∀ s,
     world s = w → email (dialog s) = mail → otp (dialog s) = code →
     String.length code = 6%nat →
     activeTab (dialog s) = Register → role (dialog s) = Doctor →
     let s' := state_after (handleVerifyOTP authService) s in
     w_user (world s') = Some u ∧
     localStorage (world s') !! "healthvault_token" = Some t ∧
     calls (world s') = calls w ++ [VerifyRegistration mail code] ∧
     openChanges s' = openChanges s ++ [false] ∧
     timeouts s'
       = timeouts s ++ [{| callback := RouterPush "/doctor/dashboard";
                           delay := 1000 |}]).
Proof.
  intros Hanswer Hsuccess Huser Htoken Htruthy w'.
  pose proof (verifyRegistration_success authService mail code w r u t b'
                Hanswer Hsuccess Huser Htoken Htruthy) as Hrun.
  unfold w', result_of, state_after. rewrite Hrun. cbn [fst snd w_user localStorage].
  split; [reflexivity|]. split; [reflexivity|].
  split; [apply lookup_insert_eq|].
  intros s Hworld Hmail Hcode Hlength Htab Hrole.
  assert (Hverify : verify authService (dialog s) (world s)
                    = verifyRegistration authService mail code w).
  { unfold verify. rewrite decide_True by exact Htab.
    rewrite Hworld, Hmail, Hcode. reflexivity. }
  rewrite Hrun in Hverify. rewrite <- Hcode in Hlength.
  unfold state_after.
  rewrite (handleVerifyOTP_accepted s r _ Hlength Hverify Hsuccess).
  cbn [snd world openChanges timeouts w_user localStorage calls].
  split; [reflexivity|]. split; [apply lookup_insert_eq|].
  split; [reflexivity|]. split; [reflexivity|].
  unfold redirect, dashboardPath. rewrite decide_True by exact Htab.
  rewrite Hrole. reflexivity.
Qed.

End DialogFacts.

(** ** The model at work *)

(** The field keeps the digits of what is typed, six at most. *)
Example otpOnChange_strips_and_cuts :
  otp (otpOnChange "12-34 ab 5678" (initialDialog Login)) = "123456".
Proof. reflexivity. Qed.

(** Five digits: [handleVerifyOTP] calls nothing and stays on the code
    view. *)
Example handleVerifyOTP_five_digits :
  let s := run accepting [ChangeEmail "a@b.com"; ClickSend true;
                          ChangeOtp "12345"] (mount Login signedOut) in
  let s' := state_after (handleVerifyOTP accepting) s in
  calls (world s') = calls (world s) ∧ step (dialog s') = Otp.
Proof. vm_compute. split; reflexivity. Qed.

(** The login of the scenario: with nobody signed in when the handler was
    rendered, the navigation falls back to the patient dashboard. *)
Example login_redirects_to_patient_dashboard :
  timeouts (run accepting [ChangeOtp "123456"; ClickVerify] loginCodeView)
    = [{| callback := LocationHref "/patient/dashboard"; delay := 1000 |}].
Proof. reflexivity. Qed.

(** [parseInt(experience) || 0] on some inputs of the experience field. *)
Example experience_values :
  or_zero (parseInt "5") = 5 ∧ or_zero (parseInt "") = 0 ∧
  or_zero (parseInt " 12.5") = 12 ∧ or_zero (parseInt "abc") = 0 ∧
  or_zero (parseInt "-3") = -3 ∧ or_zero (parseInt "0x1F") = 31.
Proof. repeat split. Qed.

(** The doctor registration of the scenario: the profile sent has the
    four doctor fields. *)
Lemma registration_profile_has_fields_of_role_witness :
  validated false (dialog doctorFormFilled) = true ∧
  calls (world (state_after (handleSendOTP accepting false) doctorFormFilled))
    = [RegisterUser "d@x.com" "Dr. X" Doctor
         (profile (dialog doctorFormFilled))] ∧
  dom (profile (dialog doctorFormFilled)) = doctorFields.
Proof.
  assert (Hvalid : validated false (dialog doctorFormFilled) = true)
    by reflexivity.
  destruct (registration_profile_has_fields_of_role accepting
              doctorFormFilled Hvalid) as (Hcalls & Hdom & _).
  split; [exact Hvalid|]. split; [exact Hcalls|exact Hdom].
Defined.

(** On the code view of the login scenario the cooldown is running and
    the resend does nothing; sixty ticks later it sends the code again. *)
Lemma resend_is_noop_while_cooldown_witness :
  0 < timer (dialog loginCodeView) ∧
  handleResendOTP accepting loginCodeView = (Returns tt, loginCodeView) ∧
  let s := run accepting (replicate 60 (Tick 0%nat)) loginCodeView in
  timer (dialog s) = 0 ∧
  handleResendOTP accepting s = handleSendOTP accepting true s.
Proof.
  assert (Hrunning : 0 < timer (dialog loginCodeView)) by (vm_compute; reflexivity).
  split; [exact Hrunning|].
  split.
  - exact (proj1 (resend_is_noop_while_cooldown accepting loginCodeView)
             Hrunning).
  - intros s.
    assert (Hzero : timer (dialog s) = 0) by (vm_compute; reflexivity).
    split; [exact Hzero|].
    exact (proj2 (resend_is_noop_while_cooldown accepting s) Hzero).
Defined.

(** The code view of the doctor registration holds six digits, and
    [handleVerifyOTP] makes the registration verification call. *)
Lemma verify_calls_backend_iff_six_digits_witness :
  reachable accepting doctorCodeTyped ∧
  six_digits (otp (dialog doctorCodeTyped)) = true ∧
  calls (world (state_after (handleVerifyOTP accepting) doctorCodeTyped))
    = calls (world doctorCodeTyped) ++ [VerifyRegistration "d@x.com" "000000"].
Proof.
  assert (Hreachable : reachable accepting doctorCodeTyped).
  { exists Register, signedOut,
      (doctorForm ++ [ClickSend false; ChangeOtp "000000"]).
    reflexivity. }
  destruct (verify_calls_backend_iff_six_digits accepting doctorCodeTyped
              Hreachable) as (_ & _ & Hcall & _).
  split; [exact Hreachable|]. split; [reflexivity|].
  exact (Hcall eq_refl).
Defined.

(** The login of the scenario: the code view opens with the timer at 60;
    one tick later it shows 59, after 60 ticks 0, and 0 still after 75. *)
Lemma cooldown_counts_down_from_60_witness :
  well_formed (dialog loginFormFilled) ∧
  validated true (dialog loginFormFilled) = true ∧
  timer (dialog loginCodeView) = 60 ∧
  timer (dialog (run accepting (replicate 1 (Tick 0%nat)) loginCodeView))
    = 59 ∧
  timer (dialog (run accepting (replicate 60 (Tick 0%nat)) loginCodeView))
    = 0 ∧
  timer (dialog (run accepting (replicate 75 (Tick 0%nat)) loginCodeView))
    = 0.
Proof.
  assert (Hwf : well_formed (dialog loginFormFilled)).
  { unfold well_formed; simpl. repeat split; lia. }
  assert (Hvalid : validated true (dialog loginFormFilled) = true)
    by reflexivity.
  destruct (cooldown_counts_down_from_60 accepting true loginFormFilled
              (ok "Code sent")
              (snd (initiate accepting true (dialog loginFormFilled)
                      (world loginFormFilled)))
              Hwf Hvalid eq_refl eq_refl)
    as (Hstart & _ & _ & Hticks & _).
  split; [exact Hwf|]. split; [exact Hvalid|]. split; [exact Hstart|].
  split; [exact (Hticks 1%nat)|].
  split; [exact (Hticks 60%nat)|exact (Hticks 75%nat)].
Defined.

(** The doctor registration, sent, left with Back and sent again: the
    same [registerUser] call twice, and the same code view. *)
Lemma back_then_initiate_repeats_first_attempt_witness :
  let s1 := state_after (handleSendOTP accepting false) doctorFormFilled in
  let s3 := state_after (handleSendOTP accepting false)
              (state_after (update handleBackToForm) s1) in
  step (dialog doctorFormFilled) = Form ∧
  calls (world s3)
    = [initiateCall false (dialog doctorFormFilled);
       initiateCall false (dialog doctorFormFilled)] ∧
  dialog s3 = dialog s1.
Proof.
  intros s1 s3.
  destruct (back_then_initiate_repeats_first_attempt accepting false
              doctorFormFilled eq_refl eq_refl eq_refl eq_refl)
    as (_ & (_ & Hcalls) & _ & Hcells).
  split; [reflexivity|]. split; [exact Hcalls|exact Hcells].
Defined.

(** The doctor registration verified: the dialog closes on a reset form
    that still has the doctor role selected. *)
Lemma resetForm_clears_all_but_role_witness :
  let closed := state_after (handleVerifyOTP accepting) doctorCodeTyped in
  openChanges closed ≠ openChanges doctorCodeTyped ∧
  openChanges closed = [false] ∧
  step (dialog closed) = Form ∧ role (dialog closed) = Doctor.
Proof.
  intros closed.
  assert (Hclosed : openChanges closed ≠ openChanges doctorCodeTyped).
  { vm_compute. discriminate. }
  destruct (resetForm_clears_all_but_role accepting doctorCodeTyped)
    as (_ & _ & _ & _ & _ & _ & _ & Hclose).
  destruct (Hclose Hclosed) as (Hopen & _ & Hstep & Hrole).
  split; [exact Hclosed|]. split; [exact Hopen|].
  split; [exact Hstep|exact Hrole].
Defined.

(** C2 (counterexample): at the end of the doctor registration the dialog
    closes and [resetForm] runs, yet the role cell is still [doctor], not
    its default [patient]. *)
Lemma resetForm_keeps_role_counterexample :
  let closed := state_after (handleVerifyOTP accepting) doctorCodeTyped in
  openChanges closed = [false] ∧
  role (resetForm (dialog doctorCodeTyped)) = Doctor ∧
  role (dialog closed) = Doctor ∧
  role (dialog closed) ≠ role (initialDialog Register).
Proof.
  vm_compute. repeat split. discriminate.
Qed.

(** The doctor registration of the scenario: [d@x.com] verifies with
    [000000]; Dr. X is signed in, the token stored, and the navigation to
    the doctor dashboard scheduled after the one verification call. *)
Lemma verifyRegistration_signs_in_witness :
  let w := world doctorCodeTyped in
  let s' := state_after (handleVerifyOTP accepting) doctorCodeTyped in
  w_user (state_after (verifyRegistration accepting "d@x.com" "000000") w)
    = Some drX ∧
  w_user (world s') = Some drX ∧
  localStorage (world s') !! "healthvault_token" = Some "tok-1" ∧
  calls (world s')
    = calls w ++ [VerifyRegistration "d@x.com" "000000"] ∧
  timeouts s' = [{| callback := RouterPush "/doctor/dashboard";
                    delay := 1000 |}].
Proof.
  intros w s'.
  destruct (verifyRegistration_signs_in accepting "d@x.com" "000000" w
              {| success := true; message := "Verified";
                 user := Some drX; token := Some "tok-1" |}
              drX "tok-1" 2%nat eq_refl eq_refl eq_refl eq_refl eq_refl)
    as (_ & Huser & _ & Hdialog).
  destruct (Hdialog doctorCodeTyped eq_refl eq_refl eq_refl eq_refl eq_refl
              eq_refl) as (Hsigned & Htoken & Hcalls & _ & Htimeouts).
  split; [exact Huser|]. split; [exact Hsigned|]. split; [exact Htoken|].
  split; [exact Hcalls|exact Htimeouts].
Defined.

(** * More of the session context *)

Section MoreProviderFacts.

Context {B : Type} (authService : AuthService B).

Implicit Types (w : World B) (e : JsError).

(** What [refreshSession] leaves behind. *)
Lemma refreshSession_frame w :
  let w' := state_after (refreshSession authService) w in
  w_user w' = match fst (svc_getCurrentUser authService (backend w)) with
              | Returns currentUser => currentUser
              | Throws _ => None
              end ∧
  w_isLoading w' = w_isLoading w ∧
  localStorage w' = localStorage w ∧
  calls w' = calls w ++ [GetCurrentUser].
Proof.
  unfold refreshSession; provider_unfold.
  destruct (svc_getCurrentUser _ _) as [[u|e] b']; simpl; auto.
Qed.

(** X1: the effect run on mount never throws and always ends with the
    loading flag down, whether the backend returns a user, returns nobody
    or throws; the session user is set only when the backend returns one,
    and is left as it was otherwise. *)
Theorem initializeAuth_always_stops_loading w :
  let w' := state_after (initializeAuth authService) w in
  result_of (initializeAuth authService) w = Returns tt ∧
  w_isLoading w' = false ∧
  w_user w' = match fst (svc_getCurrentUser authService (backend w)) with
              | Returns (Some u) => Some u
              | _ => w_user w
              end ∧
  localStorage w' = localStorage w ∧
  calls w' = calls w ++ [GetCurrentUser].
Proof.
  unfold initializeAuth; provider_unfold.
  destruct (svc_getCurrentUser _ _) as [[[u|]|e] b']; simpl; auto.
Qed.

(** X2: [refreshSession] never throws and makes the session user exactly
    what the backend reports: the returned user, nobody when the backend
    returns [null], and nobody when the backend throws. *)
Theorem refreshSession_fails_closed w :
  let w' := state_after (refreshSession authService) w in
  result_of (refreshSession authService) w = Returns tt ∧
  w_user w' = match fst (svc_getCurrentUser authService (backend w)) with
              | Returns currentUser => currentUser
              | Throws _ => None
              end ∧
  localStorage w' = localStorage w ∧
  calls w' = calls w ++ [GetCurrentUser].
Proof.
  intros w'. split; [apply refreshSession_returns|].
  destruct (refreshSession_frame w) as (Huser & _ & Hstorage & Hcalls).
  auto.
Qed.

(** X3: without a session user, or with one whose id is empty,
    [updateProfile] answers "No user logged in" at once: no backend call is
    made and nothing changes. *)
Theorem updateProfile_requires_user updates w :
  (w_user w = None ∨ ∃ u, w_user w = Some u ∧ user_id u = "") →
  updateProfile authService updates w
    = (Returns (failure "No user logged in"), w).
Proof.
  intros Hnobody.
  assert (Hid : current_user_id w = None).
  { unfold current_user_id.
    destruct Hnobody as [->|(u & -> & ->)]; reflexivity. }
  unfold updateProfile; provider_unfold. rewrite Hid. reflexivity.
Qed.

(** X4: with a user signed in, [updateProfile] passes the backend's answer
    through. A refused update makes that one call and leaves the session
    user alone; an accepted one is followed by a refresh, so the session
    user becomes what [getCurrentUser] then reports, and nobody when that
    call throws, while the result still says the update succeeded. *)
Theorem updateProfile_refreshes_on_success updates w i r b1 :
  current_user_id w = Some i →
  svc_updateProfile authService i updates (backend w) = (Returns r, b1) →
  let w' := state_after (updateProfile authService updates) w in
  result_of (updateProfile authService updates) w = Returns r ∧
  calls w'
    = calls w ++ UpdateProfile i updates
                 :: (if success r then [GetCurrentUser] else []) ∧
  w_user w'
    = (if success r
       then match fst (svc_getCurrentUser authService b1) with
            | Returns currentUser => currentUser
            | Throws _ => None
            end
       else w_user w) ∧
  localStorage w' = localStorage w.
Proof.
  intros Hid Hrun.
  unfold updateProfile; provider_unfold. rewrite Hid; simpl.
  rewrite Hrun; simpl.
  destruct (success r); simpl; [|auto].
  match goal with
  | |- context [refreshSession authService ?w1] =>
      pose proof (refreshSession_frame w1) as Hframe;
      destruct (refreshSession_run authService w1) as [w2 Hw2]
  end.
  unfold state_after in Hframe. rewrite Hw2 in *. simpl in *.
  destruct Hframe as (Huser & _ & Hstorage & Hcalls).
  rewrite Huser, Hstorage, Hcalls, <- app_assoc. auto.
Qed.

(** X5: [verifyOTPAndLogin] returns the [success] and [message] of the
    backend's answer and nothing else of it; the session user becomes the
    answer's user when the answer is a success that carries one, and stays
    as it was otherwise; [localStorage] is not written. *)
Theorem verifyOTPAndLogin_signs_in mail code w r b' :
  svc_verifyOTPAndLogin authService mail code (backend w) = (Returns r, b') →
  let w' := state_after (verifyOTPAndLogin authService mail code) w in
  result_of (verifyOTPAndLogin authService mail code) w
    = Returns {| success := success r; message := message r;
                 user := None; token := None |} ∧
  w_user w'
    = (if success r
       then match user r with Some u => Some u | None => w_user w end
       else w_user w) ∧
  localStorage w' = localStorage w.
Proof.
  intros Hrun. unfold verifyOTPAndLogin; provider_unfold.
  rewrite Hrun; simpl.
  destruct (success r), (user r); simpl; auto.
Qed.

(** X6: when the answer to [verifyRegistration] is not a success, or
    carries no user, or no token, or an empty token, it is still returned
    as it is, but nobody is signed in and nothing is stored. *)
Theorem verifyRegistration_incomplete_answer mail code w r b' :
  svc_verifyRegistration authService mail code (backend w) = (Returns r, b') →
  success r = false ∨ user r = None ∨ token r = None ∨ token r = Some "" →
  let w' := state_after (verifyRegistration authService mail code) w in
  result_of (verifyRegistration authService mail code) w = Returns r ∧
  w_user w' = w_user w ∧
  localStorage w' = localStorage w.
Proof.
  intros Hrun Hincomplete. unfold verifyRegistration; provider_unfold.
  rewrite Hrun; simpl.
  destruct Hincomplete as [->|[->|[->| ->]]];
    destruct (success r); try destruct (user r); simpl; auto;
    destruct (token r) as [t|]; simpl; auto;
    destruct (truthy t); simpl; auto.
Qed.

(** X7: of all the operations of the session context, only
    [verifyRegistration] writes [localStorage], and it writes no key but
    [healthvault_token]. *)
Theorem only_verifyRegistration_writes_localStorage w :
  localStorage (state_after (initializeAuth authService) w)
    = localStorage w ∧
  (∀ mail fullName role profile,
     localStorage
       (state_after (registerUser authService mail fullName role profile) w)
     = localStorage w) ∧
  (∀ mail,
     localStorage (state_after (sendOTP authService mail) w)
     = localStorage w) ∧
  (∀ mail code,
     localStorage (state_after (verifyOTPAndLogin authService mail code) w)
     = localStorage w) ∧
  localStorage (state_after (logout authService) w) = localStorage w ∧
  localStorage (state_after (refreshSession authService) w)
    = localStorage w ∧
  (∀ updates,
     localStorage (state_after (updateProfile authService updates) w)
     = localStorage w) ∧
  (∀ mail code key,
     key ≠ "healthvault_token" →
     localStorage (state_after (verifyRegistration authService mail code) w)
       !! key
     = localStorage w !! key).
Proof.
  split.
  { unfold initializeAuth; provider_unfold.
    destruct (svc_getCurrentUser _ _) as [[[u|]|e] b']; reflexivity. }
  split.
  { intros mail fullName role profile.
    apply (registerUser_frame authService mail fullName role profile w). }
  split; [intros mail; apply (sendOTP_frame authService mail w)|].
  split.
  { intros mail code. unfold verifyOTPAndLogin; provider_unfold.
    destruct (svc_verifyOTPAndLogin _ _ _ _) as [[r|e] b']; simpl; auto.
    destruct (success r), (user r); simpl; auto. }
  split.
  { unfold logout; provider_unfold.
    destruct (svc_logout _ _) as [[[]|e] b']; reflexivity. }
  split; [apply refreshSession_frame|].
  split.
  { intros updates. unfold updateProfile; provider_unfold.
    destruct (current_user_id w) as [i|]; simpl; auto.
    destruct (svc_updateProfile _ _ _ _) as [[r|e] b']; simpl; auto.
    destruct (success r); simpl; auto.
    match goal with
    | |- context [refreshSession authService ?w1] =>
        pose proof (refreshSession_frame w1) as Hframe;
        destruct (refreshSession_run authService w1) as [w2 Hw2]
    end.
    unfold state_after in Hframe. rewrite Hw2 in *. simpl in *.
    apply Hframe. }
  intros mail code key Hkey. unfold verifyRegistration; provider_unfold.
  destruct (svc_verifyRegistration _ _ _ _) as [[r|e] b']; simpl; auto.
  destruct (success r), (user r), (token r) as [t|];
    simpl; auto; destruct (truthy t); simpl; auto.
  apply lookup_insert_ne. congruence.
Qed.

End MoreProviderFacts.

(** Dr. X signed out, the accepting backend: no update without a user. *)
Lemma updateProfile_requires_user_witness :
  updateProfile accepting ∅ signedOut
    = (Returns (failure "No user logged in"), signedOut).
Proof.
  apply (updateProfile_requires_user accepting ∅ signedOut).
  left. reflexivity.
Defined.

(** The update is accepted but the session can no longer be fetched: the
    result is the success, and Dr. X is signed out. *)
Lemma updateProfile_refreshes_on_success_witness :
  result_of (updateProfile expiring ∅) signedIn = Returns (ok "Updated") ∧
  calls (state_after (updateProfile expiring ∅) signedIn)
    = [UpdateProfile "u-1" ∅; GetCurrentUser] ∧
  w_user (state_after (updateProfile expiring ∅) signedIn) = None.
Proof.
  destruct (updateProfile_refreshes_on_success expiring ∅ signedIn "u-1"
              (ok "Updated") 1%nat eq_refl eq_refl)
    as (Hresult & Hcalls & Huser & _).
  split; [exact Hresult|]. split; [exact Hcalls|exact Huser].
Defined.

(** A login the backend accepts: Dr. X is signed in, and the result
    carries neither the user nor a token. *)
Lemma verifyOTPAndLogin_signs_in_witness :
  result_of (verifyOTPAndLogin accepting "d@x.com" "123456") signedOut
    = Returns (ok "Logged in") ∧
  w_user (state_after (verifyOTPAndLogin accepting "d@x.com" "123456")
            signedOut) = Some drX.
Proof.
  destruct (verifyOTPAndLogin_signs_in accepting "d@x.com" "123456"
              signedOut
              {| success := true; message := "Logged in";
                 user := Some drX; token := None |} 1%nat eq_refl)
    as (Hresult & Huser & _).
  split; [exact Hresult|exact Huser].
Defined.

(** A wrong code: the refusal is returned, nobody is signed in. *)
Lemma verifyRegistration_incomplete_answer_witness :
  result_of (verifyRegistration refusing "d@x.com" "000000") signedOut
    = Returns (failure "Wrong code") ∧
  w_user (state_after (verifyRegistration refusing "d@x.com" "000000")
            signedOut) = None ∧
  localStorage (state_after (verifyRegistration refusing "d@x.com" "000000")
                  signedOut) = ∅.
Proof.
  apply (verifyRegistration_incomplete_answer refusing "d@x.com" "000000"
           signedOut (failure "Wrong code") 1%nat eq_refl).
  left. reflexivity.
Defined.

(** A registration verified: no other key of the storage is written. *)
Lemma only_verifyRegistration_writes_localStorage_witness :
  localStorage (state_after (verifyRegistration accepting "d@x.com" "000000")
                  signedOut) !! "theme"
    = None.
Proof.
  destruct (only_verifyRegistration_writes_localStorage accepting signedOut)
    as (_ & _ & _ & _ & _ & _ & _ & Hkeys).
  apply (Hkeys "d@x.com" "000000" "theme"). discriminate.
Defined.

(** * More of the dialog *)

Section MoreDialogFacts.

Context {B : Type} (authService : AuthService B).

Implicit Types (s : Sys B) (d : Dialog) (w : World B).

Lemma handleSendOTP_returns isLogin s :
  result_of (handleSendOTP authService isLogin) s = Returns tt.
Proof.
  unfold result_of.
  destruct (validated isLogin (dialog s)) eqn:Hvalid.
  - destruct (initiate_returns authService isLogin (dialog s) (world s))
      as (r & w' & Hrun).
    destruct (success r) eqn:Hsuccess.
    + rewrite (handleSendOTP_accepted _ _ _ _ _ Hvalid Hrun Hsuccess).
      reflexivity.
    + rewrite (handleSendOTP_refused _ _ _ _ _ Hvalid Hrun Hsuccess).
      reflexivity.
  - rewrite (handleSendOTP_invalid _ _ _ Hvalid). reflexivity.
Qed.

Lemma handleVerifyOTP_returns s :
  result_of (handleVerifyOTP authService) s = Returns tt.
Proof.
  unfold result_of.
  destruct (Nat.eq_dec (String.length (otp (dialog s))) 6%nat)
    as [Hlength|Hlength].
  - destruct (verify_returns authService (dialog s) (world s))
      as (r & w' & Hrun).
    destruct (success r) eqn:Hsuccess.
    + rewrite (handleVerifyOTP_accepted _ _ _ _ Hlength Hrun Hsuccess).
      reflexivity.
    + rewrite (handleVerifyOTP_rejected _ _ _ _ Hlength Hrun Hsuccess).
      reflexivity.
  - rewrite (handleVerifyOTP_blocked _ _ Hlength). reflexivity.
Qed.

Lemma truthy_empty v : truthy v = false ↔ v = "".
Proof. destruct v; simpl; split; congruence. Qed.

(** The validation fails exactly on an empty email, or on an empty name in
    the registration flow. *)
Lemma validated_false isLogin d :
  validated isLogin d = false
  ↔ email d = "" ∨ (isLogin = false ∧ fullName d = "").
Proof.
  unfold validated. rewrite andb_false_iff, orb_false_iff, !truthy_empty.
  tauto.
Qed.

(** X8: [handleSendOTP] stops before the backend exactly when the email
    is empty or, for a registration, the full name is: then it only shows
    "Email Required" (the email is checked first) or "Name Required", and
    the dialog, the session context and the intervals stay as they were.
    In every other case it makes its backend call; a login needs no
    name. *)
Theorem handleSendOTP_blocks_missing_fields isLogin s :
  let d := dialog s in
  let s' := state_after (handleSendOTP authService isLogin) s in
  (email d = "" ∨ (isLogin = false ∧ fullName d = "") →
     dialog s' = d ∧ world s' = world s ∧ intervals s' = intervals s ∧
     toasts s'
       = toasts s
         ++ [{| title := if decide (email d = "") then "Email Required"
                         else "Name Required";
                description := if decide (email d = "")
                               then "Please enter your email address."
                               else "Please enter your full name.";
                variant := Destructive |}]) ∧
  (¬ (email d = "" ∨ (isLogin = false ∧ fullName d = "")) →
     calls (world s') = calls (world s) ++ [initiateCall isLogin d]).
Proof.
  intros d s'. split.
  - intros Hmissing. apply validated_false in Hmissing.
    unfold s', state_after.
    rewrite (handleSendOTP_invalid _ _ _ Hmissing). simpl.
    repeat split. unfold requiredToast. fold d.
    destruct (decide (email d = "")) as [Hemail|Hemail].
    + rewrite Hemail. reflexivity.
    + destruct (truthy (email d)) eqn:Htruthy; [reflexivity|].
      apply truthy_empty in Htruthy. contradiction.
  - intros Hpresent. unfold s'. rewrite handleSendOTP_calls.
    destruct (validated isLogin (dialog s)) eqn:Hvalid; [reflexivity|].
    apply validated_false in Hvalid. contradiction.
Qed.

(** X9: when the backend turns the request down, or throws, the dialog
    stays on its step with its timer and starts no countdown; the loading
    flag is down again, and one destructive notification shows the
    backend's message, or the fixed message of the session context when
    the backend threw. *)
Theorem handleSendOTP_failure_keeps_step isLogin s :
  let d := dialog s in
  let s' := state_after (handleSendOTP authService isLogin) s in
  validated isLogin d = true →
  match answer authService isLogin d (backend (world s)) with
  | Returns r => success r = false
  | Throws _ => True
  end →
  dialog s' = setIsLoading false d ∧ step (dialog s') = step d ∧
  timer (dialog s') = timer d ∧ intervals s' = intervals s ∧
  toasts s'
    = toasts s
      ++ [{| title := if isLogin then "Login Failed"
                      else "Registration Failed";
             description :=
               match answer authService isLogin d (backend (world s)) with
               | Returns r => message r
               | Throws _ =>
                   if isLogin then "Failed to send OTP. Please try again."
                   else "Registration failed. Please try again."
               end;
             variant := Destructive |}].
Proof.
  intros d s' Hvalid Hfailed.
  destruct (initiate_returns authService isLogin d (world s))
    as (r & w' & Hrun).
  pose proof (initiate_result authService isLogin d (world s)) as Hresult.
  unfold result_of in Hresult. rewrite Hrun in Hresult. simpl in Hresult.
  assert (Hsuccess : success r = false).
  { destruct (answer authService isLogin d (backend (world s))) as [r0|e];
      injection Hresult as ->; [exact Hfailed|reflexivity]. }
  unfold s', state_after.
  rewrite (handleSendOTP_refused _ _ _ _ _ Hvalid Hrun Hsuccess). simpl.
  repeat split. unfold refusedToast.
  destruct (answer authService isLogin d (backend (world s))) as [r0|e];
    injection Hresult as ->; reflexivity.
Qed.

(** X10: each run of [handleSendOTP] and of [handleVerifyOTP] shows
    exactly one notification, and it is never the "Error" or "Verification
    Failed" one of their [catch] blocks: the session context has already
    turned every backend exception into a result. *)
Theorem handlers_show_one_notification s :
  (∀ isLogin,
     ∃ t, toasts (state_after (handleSendOTP authService isLogin) s)
            = toasts s ++ [t] ∧
          title t ≠ "Error") ∧
  (∃ t, toasts (state_after (handleVerifyOTP authService) s)
          = toasts s ++ [t] ∧
        title t ≠ "Verification Failed").
Proof.
  split.
  - intros isLogin. unfold state_after.
    destruct (validated isLogin (dialog s)) eqn:Hvalid.
    + destruct (initiate_returns authService isLogin (dialog s) (world s))
        as (r & w' & Hrun).
      destruct (success r) eqn:Hsuccess.
      * rewrite (handleSendOTP_accepted _ _ _ _ _ Hvalid Hrun Hsuccess).
        eexists. split; [reflexivity|]. destruct isLogin; discriminate.
      * rewrite (handleSendOTP_refused _ _ _ _ _ Hvalid Hrun Hsuccess).
        eexists. split; [reflexivity|]. destruct isLogin; discriminate.
    + rewrite (handleSendOTP_invalid _ _ _ Hvalid).
      eexists. split; [reflexivity|].
      unfold requiredToast. destruct (truthy _); discriminate.
  - unfold state_after.
    destruct (Nat.eq_dec (String.length (otp (dialog s))) 6%nat)
      as [Hlength|Hlength].
    + destruct (verify_returns authService (dialog s) (world s))
        as (r & w' & Hrun).
      destruct (success r) eqn:Hsuccess.
      * rewrite (handleVerifyOTP_accepted _ _ _ _ Hlength Hrun Hsuccess).
        eexists. split; [reflexivity|]. discriminate.
      * rewrite (handleVerifyOTP_rejected _ _ _ _ Hlength Hrun Hsuccess).
        eexists. split; [reflexivity|]. discriminate.
    + rewrite (handleVerifyOTP_blocked _ _ Hlength).
      eexists. split; [reflexivity|]. discriminate.
Qed.

(** X11: no event handler of the dialog lets an exception escape,
    whatever the state and whatever the backend does. *)
Theorem handlers_never_throw e s :
  result_of (handler authService e) s = Returns tt.
Proof.
  destruct e; try reflexivity.
  - apply handleSendOTP_returns.
  - apply handleVerifyOTP_returns.
  - simpl. unfold handleResendOTP; eff_unfold; simpl.
    destruct (timer (dialog s) =? 0); [|reflexivity].
    apply handleSendOTP_returns.
  - simpl. unfold result_of.
    destruct (decide (handle ∈ intervals s)) as [Hactive|Hcleared].
    + destruct (Z.le_gt_cases (timer (dialog s)) 1) as [Hlast|Hmore].
      * rewrite (intervalTick_stopping _ _ Hactive Hlast). reflexivity.
      * rewrite (intervalTick_counting _ _ Hactive Hmore). reflexivity.
    + rewrite (intervalTick_cleared _ _ Hcleared). reflexivity.
Qed.

(** The run of [verifyOTPAndLogin] on an answer of the backend. *)
Lemma verifyOTPAndLogin_run mail code w r b' :
  svc_verifyOTPAndLogin authService mail code (backend w) = (Returns r, b') →
  verifyOTPAndLogin authService mail code w
    = (Returns {| success := success r; message := message r;
                  user := None; token := None |},
       {| w_user := if success r
                    then match user r with
                         | Some u => Some u
                         | None => w_user w
                         end
                    else w_user w;
          w_isLoading := w_isLoading w; localStorage := localStorage w;
          backend := b';
          calls := calls w ++ [VerifyOTPAndLogin mail code];
          console := console w |}).
Proof.
  intros Hrun. unfold verifyOTPAndLogin; provider_unfold.
  rewrite Hrun; simpl.
  destruct (success r), (user r); reflexivity.
Qed.

(** The run of [verifyRegistration] on an answer of the backend. *)
Lemma verifyRegistration_run mail code w r b' :
  svc_verifyRegistration authService mail code (backend w) = (Returns r, b') →
  ∃ w', verifyRegistration authService mail code w = (Returns r, w') ∧
        w_user w'
          = match success r, user r, token r with
            | true, Some u, Some t => if truthy t then Some u else w_user w
            | _, _, _ => w_user w
            end.
Proof.
  intros Hrun. unfold verifyRegistration; provider_unfold.
  rewrite Hrun; simpl.
  destruct (success r), (user r), (token r) as [t|];
    simpl; eauto; destruct (truthy t); simpl; eauto.
Qed.

(** X12: after an accepted login code the dialog closes, resets its form
    and schedules a navigation whose target was fixed when the handler was
    rendered: the dashboard of the user who was signed in before the
    login, and the patient dashboard when nobody was. The user the login
    has just signed in plays no part in it. *)
Theorem login_redirect_reads_session_before_login s r b' :
  let d := dialog s in
  let s' := state_after (handleVerifyOTP authService) s in
  activeTab d = Login → String.length (otp d) = 6%nat →
  svc_verifyOTPAndLogin authService (email d) (otp d) (backend (world s))
    = (Returns r, b') →
  success r = true →
  w_user (world s')
    = match user r with Some u => Some u | None => w_user (world s) end ∧
  openChanges s' = openChanges s ++ [false] ∧
  dialog s' = setIsLoading false (resetForm d) ∧
  timeouts s'
    = timeouts s
      ++ [{| callback :=
               LocationHref
                 match w_user (world s) with
                 | Some u => dashboardPath (user_role u)
                 | None => "/patient/dashboard"
                 end;
             delay := 1000 |}].
Proof.
  intros d s' Htab Hlength Hrun Hsuccess.
  pose proof (verifyOTPAndLogin_run _ _ _ _ _ Hrun) as Hlogin.
  assert (Hverify : verify authService d (world s)
                    = verifyOTPAndLogin authService (email d) (otp d)
                        (world s)).
  { unfold verify. rewrite decide_False; [reflexivity|].
    rewrite Htab. discriminate. }
  rewrite Hlogin in Hverify.
  unfold s', state_after.
  rewrite (handleVerifyOTP_accepted _ _ _ _ Hlength Hverify Hsuccess).
  cbn [snd world w_user openChanges dialog timeouts].
  rewrite Hsuccess.
  split; [reflexivity|]. split; [reflexivity|]. split; [reflexivity|].
  unfold redirect. fold d. rewrite decide_False; [reflexivity|].
  rewrite Htab. discriminate.
Qed.

(** X13: after an accepted registration code the dialog closes and
    schedules [router.push] to the dashboard of the role selected in the
    form, whatever the role of the user in the backend's answer; it does so
    on [success] alone, also when the answer carries no user or no token
    and nobody has been signed in. *)
Theorem registration_redirect_follows_form_role s r b' :
  let d := dialog s in
  let s' := state_after (handleVerifyOTP authService) s in
  activeTab d = Register → String.length (otp d) = 6%nat →
  svc_verifyRegistration authService (email d) (otp d) (backend (world s))
    = (Returns r, b') →
  success r = true →
  openChanges s' = openChanges s ++ [false] ∧
  timeouts s'
    = timeouts s
      ++ [{| callback :=
               RouterPush match role d with
                          | Doctor => "/doctor/dashboard"
                          | Patient => "/patient/dashboard"
                          end;
             delay := 1000 |}] ∧
  w_user (world s')
    = match user r, token r with
      | Some u, Some t => if truthy t then Some u else w_user (world s)
      | _, _ => w_user (world s)
      end.
Proof.
  intros d s' Htab Hlength Hrun Hsuccess.
  destruct (verifyRegistration_run _ _ _ _ _ Hrun) as (w' & Hregister & Huser).
  rewrite Hsuccess in Huser.
  assert (Hverify : verify authService d (world s)
                    = verifyRegistration authService (email d) (otp d)
                        (world s)).
  { unfold verify. rewrite decide_True by exact Htab. reflexivity. }
  rewrite Hregister in Hverify.
  unfold s', state_after.
  rewrite (handleVerifyOTP_accepted _ _ _ _ Hlength Hverify Hsuccess).
  cbn [snd world openChanges timeouts].
  split; [reflexivity|]. split; [|exact Huser].
  unfold redirect, dashboardPath. fold d.
  rewrite decide_True by exact Htab.
  destruct (role d); reflexivity.
Qed.

(** X14: when the session context reports a failed verification the
    dialog stays on the code view with the typed code and the running
    timer, shows "Invalid OTP" with the reported message, and neither
    closes nor schedules a navigation. *)
Theorem rejected_code_stays_typed s r w' :
  let d := dialog s in
  let s' := state_after (handleVerifyOTP authService) s in
  String.length (otp d) = 6%nat →
  verify authService d (world s) = (Returns r, w') →
  success r = false →
  step (dialog s') = step d ∧ otp (dialog s') = otp d ∧
  timer (dialog s') = timer d ∧ draft (dialog s') = draft d ∧
  isLoading (dialog s') = false ∧
  toasts s'
    = toasts s ++ [{| title := "Invalid OTP"; description := message r;
                      variant := Destructive |}] ∧
  openChanges s' = openChanges s ∧ timeouts s' = timeouts s.
Proof.
  intros d s' Hlength Hrun Hsuccess. unfold s', state_after.
  rewrite (handleVerifyOTP_rejected _ _ _ _ Hlength Hrun Hsuccess).
  simpl. repeat split.
Qed.

Lemma strip_non_digits_id v :
  all_digits v = true → strip_non_digits v = v.
Proof.
  induction v as [|c v IH]; simpl; [reflexivity|].
  intros [Hc Hv]%andb_prop. rewrite Hc, (IH Hv). reflexivity.
Qed.

Lemma slice_0_id n v : (String.length v ≤ n)%nat → slice_0 n v = v.
Proof.
  revert v. induction n as [|n IH]; intros [|c v]; simpl;
    try reflexivity; try lia.
  intros Hlength. rewrite IH by lia. reflexivity.
Qed.

(** X15: the code field keeps a string of at most 6 digits exactly as it
    is typed or pasted, and feeding the field its own content back changes
    nothing. *)
Theorem otpOnChange_keeps_clean_codes value d :
  (all_digits value = true → (String.length value ≤ 6)%nat →
     otp (otpOnChange value d) = value) ∧
  otpOnChange (otp (otpOnChange value d)) (otpOnChange value d)
    = otpOnChange value d.
Proof.
  split.
  - intros Hdigits Hlength. unfold otpOnChange, setOtp; cbn [otp].
    rewrite (strip_non_digits_id _ Hdigits). apply slice_0_id, Hlength.
  - unfold otpOnChange, setOtp; cbn -[slice_0 strip_non_digits].
    rewrite strip_non_digits_id
      by apply slice_0_all_digits, strip_non_digits_all_digits.
    rewrite slice_0_id by apply slice_0_length. reflexivity.
Qed.

(** X16: the role button switches between the two roles and back: two
    clicks restore the dialog, and a click changes nothing but the role,
    so what was typed in the fields of either role is kept. *)
Theorem toggleRole_switches_back d :
  role (toggleRole d) ≠ role d ∧
  toggleRole (toggleRole d) = d ∧
  setRole (role d) (toggleRole d) = d.
Proof.
  destruct d as [tab st em code loading t name [] ph dob addr spec lic ex];
    repeat split; discriminate.
Qed.

Lemma resend_is_noop_while_cooldown_at_zero s :
  timer (dialog s) = 0 →
  handleResendOTP authService s
    = handleSendOTP authService
        (bool_decide (activeTab (dialog s) = Login)) s.
Proof.
  intros Htimer. unfold handleResendOTP; eff_unfold; simpl.
  rewrite Htimer. reflexivity.
Qed.

(** X17: a button that is not disabled never runs into the client-side
    validation of its handler: an enabled "Send Login Code" or "Create
    Account" makes its backend call, an enabled "Verify Code" makes the
    verification call, and an enabled resend button (on a well-formed
    dialog) sends the request again. *)
Theorem enabled_buttons_pass_validation s :
  let d := dialog s in
  (∀ isLogin,
     disabled (ClickSend isLogin) d = false →
     calls (world (state_after (handleSendOTP authService isLogin) s))
       = calls (world s) ++ [initiateCall isLogin d]) ∧
  (disabled ClickVerify d = false →
     calls (world (state_after (handleVerifyOTP authService) s))
       = calls (world s) ++ [verifyCall d]) ∧
  (well_formed d → disabled ClickResend d = false →
     handleResendOTP authService s
       = handleSendOTP authService (bool_decide (activeTab d = Login)) s).
Proof.
  intros d. split; [|split].
  - intros isLogin Henabled. rewrite handleSendOTP_calls. fold d.
    assert (Hvalid : validated isLogin d = true).
    { unfold validated.
      destruct isLogin; simpl in Henabled;
        repeat (apply orb_false_iff in Henabled as [Henabled ?]);
        repeat match goal with
               | H : negb _ = false |- _ => apply negb_false_iff in H
               end;
        auto using andb_true_intro. }
    rewrite Hvalid. reflexivity.
  - intros Henabled. simpl in Henabled.
    apply orb_false_iff in Henabled as [_ Hlength].
    apply negb_false_iff in Hlength.
    rewrite handleVerifyOTP_calls. fold d. rewrite Hlength. reflexivity.
  - intros (_ & _ & Hrange & _) Henabled. simpl in Henabled.
    apply Z.ltb_ge in Henabled. unfold d in *.
    apply resend_is_noop_while_cooldown_at_zero. lia.
Qed.

(** *** What a mounted dialog keeps true *)

(** [handleSendOTP] leaves the session user and the storage alone. *)
Lemma handleSendOTP_session isLogin s :
  let s' := state_after (handleSendOTP authService isLogin) s in
  w_user (world s') = w_user (world s) ∧
  localStorage (world s') = localStorage (world s).
Proof.
  unfold state_after.
  destruct (validated isLogin (dialog s)) eqn:Hvalid.
  - destruct (initiate_returns authService isLogin (dialog s) (world s))
      as (r & w' & Hrun).
    pose proof (initiate_frame authService isLogin (dialog s) (world s))
      as Hframe.
    unfold state_after in Hframe. rewrite Hrun in Hframe.
    destruct Hframe as (Huser & Hstorage & _).
    destruct (success r) eqn:Hsuccess.
    + rewrite (handleSendOTP_accepted _ _ _ _ _ Hvalid Hrun Hsuccess).
      auto.
    + rewrite (handleSendOTP_refused _ _ _ _ _ Hvalid Hrun Hsuccess).
      auto.
  - rewrite (handleSendOTP_invalid _ _ _ Hvalid). auto.
Qed.






(** X20: of all the events of the dialog, only "Verify Code" can change
    the session user or write the storage; every other one, the two send
    buttons and the resend included, leaves both as they were. *)
Theorem only_verify_changes_session e s :
  e ≠ ClickVerify →
  w_user (world (after authService e s)) = w_user (world s) ∧
  localStorage (world (after authService e s)) = localStorage (world s).
Proof.
  intros Hevent. unfold after.
  destruct (rendered e (dialog s)); [|auto].
  destruct e; try (simpl; auto; fail).
  - apply handleSendOTP_session.
  - contradiction.
  - simpl. unfold handleResendOTP; eff_unfold; simpl.
    destruct (timer (dialog s) =? 0); [|auto].
    apply handleSendOTP_session.
  - simpl. unfold state_after.
    destruct (decide (handle ∈ intervals s)) as [Hactive|Hcleared].
    + destruct (Z.le_gt_cases (timer (dialog s)) 1) as [Hlast|Hmore].
      * rewrite (intervalTick_stopping _ _ Hactive Hlast). auto.
      * rewrite (intervalTick_counting _ _ Hactive Hmore). auto.
    + rewrite (intervalTick_cleared _ _ Hcleared). auto.
Qed.

(** X21: going back does not clear the countdown interval: it is still
    running after [handleBackToForm]. Its next tick finds the timer at 0,
    clears the interval and leaves the cells of the dialog as they
    were. *)
Theorem back_leaves_interval_to_stop_itself s h :
  step (dialog s) = Otp → h ∈ intervals s →
  let s1 := after authService ClickBack s in
  let s2 := after authService (Tick h) s1 in
  dialog s1 = handleBackToForm (dialog s) ∧ h ∈ intervals s1 ∧
  dialog s2 = dialog s1 ∧ h ∉ intervals s2.
Proof.
  intros Hstep Hactive s1 s2.
  assert (Hs1 : s1 = state_after (update handleBackToForm) s).
  { unfold s1, after. simpl. rewrite bool_decide_eq_true_2 by exact Hstep.
    reflexivity. }
  assert (Hactive1 : h ∈ intervals s1) by (rewrite Hs1; exact Hactive).
  assert (Hzero : timer (dialog s1) ≤ 1) by (rewrite Hs1; simpl; lia).
  split; [rewrite Hs1; reflexivity|]. split; [exact Hactive1|].
  unfold s2, after. simpl. unfold state_after.
  rewrite (intervalTick_stopping _ _ Hactive1 Hzero). simpl.
  split; [rewrite Hs1; reflexivity|]. apply cleared_after_stopping.
Qed.

(** *** Two countdowns at once *)

Lemma run_app es1 es2 s :
  run authService (es1 ++ es2) s
    = run authService es2 (run authService es1 s).
Proof. unfold run. apply foldl_app. Qed.

Lemma after_tick h s :
  after authService (Tick h) s = state_after (intervalTick h) s.
Proof. reflexivity. Qed.

(** Once at 0, the timer is not moved by ticks. *)
Lemma run_ticks_at_zero hs s :
  timer (dialog s) = 0 →
  timer (dialog (run authService (Tick <$> hs) s)) = 0.
Proof.
  revert s. induction hs as [|h hs IH]; intros s Hzero; [exact Hzero|].
  change (run authService (Tick <$> h :: hs) s)
    with (run authService (Tick <$> hs) (after authService (Tick h) s)).
  apply IH. rewrite after_tick, intervalTick_timer, Hzero.
  destruct (bool_decide (h ∈ intervals s)); reflexivity.
Qed.

(** One tick of each of two running intervals. *)
Lemma run_two_ticks h0 h1 s :
  h0 ≠ h1 → h0 ∈ intervals s → h1 ∈ intervals s → 0 ≤ timer (dialog s) →
  let s' := run authService [Tick h0; Tick h1] s in
  timer (dialog s') = Z.max 0 (timer (dialog s) - 2) ∧
  (3 ≤ timer (dialog s) → h0 ∈ intervals s' ∧ h1 ∈ intervals s').
Proof.
  intros Hdistinct Hactive0 Hactive1 Hrange.
  change (run authService [Tick h0; Tick h1] s)
    with (after authService (Tick h1) (after authService (Tick h0) s)).
  rewrite !after_tick. unfold state_after.
  destruct (Z.le_gt_cases (timer (dialog s)) 1) as [Hlast|Hmore].
  - rewrite (intervalTick_stopping _ _ Hactive0 Hlast).
    cbn zeta. split; [|lia].
    match goal with
    | |- timer (dialog (snd (intervalTick h1 ?s1))) = _ =>
        pose proof (intervalTick_timer h1 s1) as Htick
    end.
    unfold state_after in Htick. rewrite Htick. simpl.
    destruct (bool_decide _); lia.
  - rewrite (intervalTick_counting _ _ Hactive0 Hmore). cbn zeta.
    destruct (Z.le_gt_cases (timer (dialog s)) 2) as [Htwo|Hthree].
    + rewrite intervalTick_stopping; [|exact Hactive1|simpl; lia].
      simpl. split; lia.
    + rewrite intervalTick_counting; [|exact Hactive1|simpl; lia].
      simpl. split; [lia|]. auto.
Qed.

(** [k] rounds of ticks of two running intervals take [2 k] off the
    timer. *)
Lemma run_two_intervals h0 h1 k s :
  h0 ≠ h1 → h0 ∈ intervals s → h1 ∈ intervals s → 0 ≤ timer (dialog s) →
  timer (dialog (run authService
                   (Tick <$> concat (replicate k [h0; h1])) s))
    = Z.max 0 (timer (dialog s) - 2 * Z.of_nat k).
Proof.
  intros Hdistinct. revert s.
  induction k as [|k IH]; intros s Hactive0 Hactive1 Hrange.
  - simpl. lia.
  - change (Tick <$> concat (replicate (S k) [h0; h1]))
      with ([Tick h0; Tick h1]
              ++ (Tick <$> concat (replicate k [h0; h1]))).
    rewrite run_app.
    destruct (run_two_ticks h0 h1 s Hdistinct Hactive0 Hactive1 Hrange)
      as [Hround Hstill].
    destruct (Z.le_gt_cases 3 (timer (dialog s))) as [Hmany|Hfew].
    + destruct (Hstill Hmany) as [Hactive0' Hactive1'].
      rewrite IH by (try assumption; lia). lia.
    + rewrite run_ticks_at_zero by lia. lia.
Qed.

(** X22: when a request is accepted, the user goes back and the request
    is accepted again before the first interval has ticked, two intervals
    are running over the one timer: it starts at 60 again and loses 2 with
    every round of ticks, reaching 0 after 30 rounds. *)
Theorem resent_before_a_tick_counts_twice_as_fast isLogin s0 :
  let s1 := state_after (handleSendOTP authService isLogin) s0 in
  let s2 := after authService ClickBack s1 in
  let s3 := state_after (handleSendOTP authService isLogin) s2 in
  let h0 := nextHandle s0 in
  let h1 := S h0 in
  step (dialog s0) = Form → step (dialog s1) = Otp → step (dialog s3) = Otp →
  timer (dialog s3) = 60 ∧ h0 ∈ intervals s3 ∧ h1 ∈ intervals s3 ∧
  ∀ k, timer (dialog (run authService
                        (Tick <$> concat (replicate k [h0; h1])) s3))
       = Z.max 0 (60 - 2 * Z.of_nat k).
Proof.
  intros s1 s2 s3 h0 h1 Hform Hsent Hresent.
  assert (Hs3 : timer (dialog s3) = 60 ∧ h0 ∈ intervals s3 ∧
                h1 ∈ intervals s3).
  { unfold s3, s2, s1, state_after in *. clear s1 s2 s3.
    destruct (validated isLogin (dialog s0)) eqn:Hvalid.
    - destruct (initiate_returns authService isLogin (dialog s0) (world s0))
        as (r & w1 & Hrun1).
      destruct (success r) eqn:Hsuccess.
      + rewrite (handleSendOTP_accepted _ _ _ _ _ Hvalid Hrun1 Hsuccess)
          in *.
        unfold after in *. cbn [snd dialog] in *.
        change (rendered ClickBack
                  (setIsLoading false (setTimer 60 (setStep Otp
                     (setIsLoading true (dialog s0))))))
          with true in *.
        cbn iota in *. unfold state_after, handler, update, modify in *.
        cbn [snd dialog world toasts openChanges timeouts intervals
             nextHandle] in *.
        match type of Hresent with
        | step (dialog (snd (handleSendOTP _ _ ?st))) = _ =>
            set (s2 := st) in *
        end.
        destruct (initiate_returns authService isLogin (dialog s2)
                    (world s2)) as (r2 & w3 & Hrun2).
        assert (Hvalid2 : validated isLogin (dialog s2) = true)
          by exact Hvalid.
        destruct (success r2) eqn:Hsuccess2.
        * rewrite (handleSendOTP_accepted _ _ _ _ _ Hvalid2 Hrun2
                     Hsuccess2).
          cbn [snd dialog intervals]. unfold s2.
          cbn [nextHandle intervals].
          split; [reflexivity|]. unfold h1, h0.
          split; [apply list_elem_of_further|]; apply list_elem_of_here.
        * rewrite (handleSendOTP_refused _ _ _ _ _ Hvalid2 Hrun2
                     Hsuccess2) in Hresent.
          discriminate Hresent.
      + rewrite (handleSendOTP_refused _ _ _ _ _ Hvalid Hrun1 Hsuccess)
          in Hsent.
        cbn [snd dialog] in Hsent.
        change (step (dialog s0) = Otp) in Hsent. congruence.
    - rewrite (handleSendOTP_invalid _ _ _ Hvalid) in Hsent.
      cbn [snd dialog] in Hsent. congruence. }
  destruct Hs3 as (Htimer & Hactive0 & Hactive1).
  split; [exact Htimer|]. split; [exact Hactive0|]. split; [exact Hactive1|].
  intros k.
  rewrite (run_two_intervals h0 h1 k s3); [rewrite Htimer; reflexivity| |
    exact Hactive0|exact Hactive1|lia].
  unfold h1. lia.
Qed.

End MoreDialogFacts.

(** ** More of the model at work *)

(** "Send Login Code" on an empty form: "Email Required", no call. *)
Lemma handleSendOTP_blocks_missing_fields_witness :
  let s := mount Login signedOut in
  let s' := state_after (handleSendOTP accepting true) s in
  email (dialog s) = "" ∧ calls (world s') = [] ∧
  title <$> toasts s' = ["Email Required"].
Proof.
  intros s s'.
  assert (Hempty : email (dialog s) = "") by reflexivity.
  destruct (proj1 (handleSendOTP_blocks_missing_fields accepting true s)
              (or_introl Hempty)) as (_ & Hworld & _ & Htoasts).
  split; [exact Hempty|].
  split; [exact (f_equal calls Hworld)|].
  exact (f_equal (fmap title) Htoasts).
Defined.

(** The backend is out of reach when the login code is requested: "Login
    Failed" with the message of the session context, and the form stays. *)
Lemma handleSendOTP_failure_keeps_step_witness :
  let s' := state_after (handleSendOTP unreachable true) loginFormFilled in
  validated true (dialog loginFormFilled) = true ∧
  step (dialog s') = Form ∧ intervals s' = [] ∧
  toasts s'
    = [{| title := "Login Failed";
          description := "Failed to send OTP. Please try again.";
          variant := Destructive |}].
Proof.
  intros s'.
  assert (Hvalid : validated true (dialog loginFormFilled) = true)
    by reflexivity.
  destruct (handleSendOTP_failure_keeps_step unreachable true loginFormFilled
              Hvalid I) as (_ & Hstep & _ & Hintervals & Htoasts).
  split; [exact Hvalid|]. split; [exact Hstep|].
  split; [exact Hintervals|exact Htoasts].
Defined.

(** Dr. X, a doctor, logs in from a signed-out session: she is signed in,
    and the navigation goes to the patient dashboard. *)
Lemma login_redirect_reads_session_before_login_witness :
  let s' := state_after (handleVerifyOTP accepting) loginCodeTyped in
  activeTab (dialog loginCodeTyped) = Login ∧
  w_user (world loginCodeTyped) = None ∧
  w_user (world s') = Some drX ∧ user_role drX = Doctor ∧
  timeouts s'
    = [{| callback := LocationHref "/patient/dashboard"; delay := 1000 |}].
Proof.
  intros s'.
  destruct (login_redirect_reads_session_before_login accepting
              loginCodeTyped
              {| success := true; message := "Logged in";
                 user := Some drX; token := None |} 2%nat
              eq_refl eq_refl eq_refl eq_refl)
    as (Huser & _ & _ & Htimeouts).
  split; [reflexivity|]. split; [reflexivity|]. split; [exact Huser|].
  split; [reflexivity|exact Htimeouts].
Defined.

(** A registration sent with the role left on patient, answered with a
    user whose role is doctor: the navigation follows the form. *)
Lemma registration_redirect_follows_form_role_witness :
  let s' := state_after (handleVerifyOTP accepting) patientCodeTyped in
  role (dialog patientCodeTyped) = Patient ∧
  w_user (world s') = Some drX ∧
  timeouts s'
    = [{| callback := RouterPush "/patient/dashboard"; delay := 1000 |}].
Proof.
  intros s'.
  destruct (registration_redirect_follows_form_role accepting
              patientCodeTyped
              {| success := true; message := "Verified";
                 user := Some drX; token := Some "tok-1" |} 2%nat
              eq_refl eq_refl eq_refl eq_refl)
    as (_ & Htimeouts & Huser).
  split; [reflexivity|]. split; [exact Huser|exact Htimeouts].
Defined.

(** A wrong code on the doctor registration: the code stays typed. *)
Lemma rejected_code_stays_typed_witness :
  let s' := state_after (handleVerifyOTP refusing) doctorCodeTyped in
  String.length (otp (dialog doctorCodeTyped)) = 6%nat ∧
  step (dialog s') = step (dialog doctorCodeTyped) ∧
  otp (dialog s') = otp (dialog doctorCodeTyped) ∧
  otp (dialog doctorCodeTyped) = "000000" ∧
  toasts s'
    = toasts doctorCodeTyped
      ++ [{| title := "Invalid OTP"; description := "Wrong code";
             variant := Destructive |}].
Proof.
  intros s'.
  assert (Hlength : String.length (otp (dialog doctorCodeTyped)) = 6%nat)
    by (vm_compute; reflexivity).
  assert (Hrun : verify refusing (dialog doctorCodeTyped)
                   (world doctorCodeTyped)
                 = (Returns (failure "Wrong code"),
                    snd (verify refusing (dialog doctorCodeTyped)
                           (world doctorCodeTyped))))
    by (vm_compute; reflexivity).
  destruct (rejected_code_stays_typed refusing doctorCodeTyped
              (failure "Wrong code") _ Hlength Hrun eq_refl)
    as (Hstep & Hotp & _ & _ & _ & Htoasts & _).
  split; [exact Hlength|]. split; [exact Hstep|]. split; [exact Hotp|].
  split; [vm_compute; reflexivity|exact Htoasts].
Defined.

(** A code pasted clean is stored as it is. *)
Lemma otpOnChange_keeps_clean_codes_witness :
  otp (otpOnChange "123456" (initialDialog Login)) = "123456".
Proof.
  apply (proj1 (otpOnChange_keeps_clean_codes "123456"
                  (initialDialog Login))).
  - reflexivity.
  - simpl. lia.
Defined.

(** The doctor registration: "Create Account" is enabled on the filled
    form and registers; "Verify Code" is enabled once the six digits are
    typed and verifies. *)
Lemma enabled_buttons_pass_validation_witness :
  calls (world (state_after (handleSendOTP accepting false)
                  doctorFormFilled))
    = [initiateCall false (dialog doctorFormFilled)] ∧
  calls (world (state_after (handleVerifyOTP accepting) doctorCodeTyped))
    = calls (world doctorCodeTyped)
      ++ [VerifyRegistration "d@x.com" "000000"].
Proof.
  split.
  - exact (proj1 (enabled_buttons_pass_validation accepting doctorFormFilled)
             false eq_refl).
  - exact (proj1 (proj2 (enabled_buttons_pass_validation accepting
                           doctorCodeTyped)) eq_refl).
Defined.




(** Sending the doctor registration signs nobody in. *)
Lemma only_verify_changes_session_witness :
  w_user (world (after accepting (ClickSend false) doctorFormFilled)) = None ∧
  localStorage (world (after accepting (ClickSend false) doctorFormFilled))
    = ∅.
Proof.
  apply (only_verify_changes_session accepting (ClickSend false)
           doctorFormFilled).
  discriminate.
Defined.

(** Back from the code view of the login: interval 0 is still running,
    and stops at its next tick. *)
Lemma back_leaves_interval_to_stop_itself_witness :
  let s1 := after accepting ClickBack loginCodeView in
  let s2 := after accepting (Tick 0%nat) s1 in
  step (dialog loginCodeView) = Otp ∧ 0%nat ∈ intervals loginCodeView ∧
  0%nat ∈ intervals s1 ∧ dialog s2 = dialog s1 ∧ 0%nat ∉ intervals s2.
Proof.
  intros s1 s2.
  assert (Hstep : step (dialog loginCodeView) = Otp)
    by (vm_compute; reflexivity).
  assert (Hactive : 0%nat ∈ intervals loginCodeView)
    by (vm_compute; apply list_elem_of_here).
  destruct (back_leaves_interval_to_stop_itself accepting loginCodeView
              0%nat Hstep Hactive) as (_ & Hrunning & Hcells & Hcleared).
  split; [exact Hstep|]. split; [exact Hactive|].
  split; [exact Hrunning|]. split; [exact Hcells|exact Hcleared].
Defined.

(** The login code requested, Back, and requested again at once: ten
    rounds of ticks later the timer shows 40, and 0 after thirty. *)
Lemma resent_before_a_tick_counts_twice_as_fast_witness :
  let s3 := state_after (handleSendOTP accepting true)
              (after accepting ClickBack loginCodeView) in
  intervals s3 = [1%nat; 0%nat] ∧
  timer (dialog (run accepting
                   (Tick <$> concat (replicate 10 [0%nat; 1%nat])) s3))
    = 40 ∧
  timer (dialog (run accepting
                   (Tick <$> concat (replicate 30 [0%nat; 1%nat])) s3))
    = 0.
Proof.
  intros s3.
  destruct (resent_before_a_tick_counts_twice_as_fast accepting true
              loginFormFilled eq_refl eq_refl eq_refl)
    as (_ & _ & _ & Hrounds).
  split; [reflexivity|].
  split; [exact (Hrounds 10%nat)|exact (Hrounds 30%nat)].
Defined.


(** * The experience field: [parseInt(experience) || 0] *)

(** Case analysis on the 256 characters. *)
Ltac each_char c :=
  destruct c as [[] [] [] [] [] [] [] []].

(** The part of [parseInt] after the sign, on a string without digits. *)
Lemma unsigned_no_digit s2 sign :
  strip_non_digits s2 = "" →
  (let '(radix, s3) :=
     match s2 with
     | String "0" (String "x" r) => (16, r)
     | String "0" (String "X" r) => (16, r)
     | _ => (10, s2)
     end in
   Z.mul sign <$> parse_digits radix None s3) = None.
Proof.
  destruct s2 as [|c r]; [reflexivity|]. simpl.
  destruct (is_digit c) eqn:Hc; [discriminate|]. intros _.
  each_char c; try discriminate Hc; reflexivity.
Qed.

Lemma trim_start_no_digit s :
  strip_non_digits s = "" → strip_non_digits (trim_start s) = "".
Proof.
  induction s as [|c r IH]; [reflexivity|]. intros Hs.
  simpl. destruct (is_white_space c) eqn:Hw; [|exact Hs].
  apply IH. simpl in Hs. destruct (is_digit c); [discriminate|exact Hs].
Qed.

(** Without a digit there is no number: [parseInt] gives [NaN]. *)
Lemma parseInt_no_digit s :
  strip_non_digits s = "" → parseInt s = None.
Proof.
  intros Hs. apply trim_start_no_digit in Hs.
  unfold parseInt. destruct (trim_start s) as [|c r]; [reflexivity|].
  simpl in Hs. destruct (is_digit c) eqn:Hc; [discriminate|].
  pose proof (unsigned_no_digit r (-1) Hs) as Hminus.
  pose proof (unsigned_no_digit r 1 Hs) as Hplus.
  pose proof (unsigned_no_digit (String c r) 1) as Hnone.
  simpl strip_non_digits in Hnone. rewrite Hc in Hnone.
  specialize (Hnone Hs).
  each_char c; try discriminate Hc;
    first [exact Hnone | exact Hminus | exact Hplus].
Qed.

(** The part of [parseInt] after the sign, on a string of digits: no
    [0x] prefix can be read into it. *)
Lemma unsigned_all_digits t sign :
  all_digits t = true →
  (let '(radix, s3) :=
     match t with
     | String "0" (String "x" r) => (16, r)
     | String "0" (String "X" r) => (16, r)
     | _ => (10, t)
     end in
   Z.mul sign <$> parse_digits radix None s3)
  = Z.mul sign <$> parse_digits 10 None t.
Proof.
  destruct t as [|c r]; [reflexivity|]. simpl all_digits.
  intros [Hc Hr]%andb_prop.
  each_char c; try discriminate Hc; try reflexivity.
  destruct r as [|c2 r2]; [reflexivity|].
  simpl in Hr. apply andb_prop in Hr as [Hc2 _].
  each_char c2; try discriminate Hc2; reflexivity.
Qed.

Lemma parseInt_all_digits t :
  all_digits t = true → parseInt t = Z.mul 1 <$> parse_digits 10 None t.
Proof.
  intros Ht. rewrite <- (unsigned_all_digits t 1 Ht).
  destruct t as [|c r]; [reflexivity|]. simpl in Ht.
  apply andb_prop in Ht as [Hc _].
  each_char c; try discriminate Hc; reflexivity.
Qed.

Lemma parseInt_minus_all_digits t :
  all_digits t = true →
  parseInt (String "-" t) = Z.mul (-1) <$> parse_digits 10 None t.
Proof.
  intros Ht. rewrite <- (unsigned_all_digits t (-1) Ht). reflexivity.
Qed.

Lemma digit_value_digit m :
  (m < 10)%N → digit_value 10 (pretty_N_char m) = Some (Z.of_N m).
Proof.
  intros Hm.
  assert (m = 0 ∨ m = 1 ∨ m = 2 ∨ m = 3 ∨ m = 4 ∨ m = 5 ∨ m = 6 ∨ m = 7
          ∨ m = 8 ∨ m = 9)%N as Hcases by lia.
  repeat destruct Hcases as [->|Hcases]; try subst m; reflexivity.
Qed.

Lemma is_digit_pretty m : is_digit (pretty_N_char m) = true.
Proof. unfold pretty_N_char. repeat case_match; reflexivity. Qed.

Lemma pretty_N_go_all_digits x s :
  all_digits s = true → all_digits (pretty_N_go x s) = true.
Proof.
  revert s. induction (N.lt_wf_0 x) as [x _ IH]; intros s Hs.
  destruct (N.eq_0_gt_0_cases x) as [->|Hx].
  - rewrite pretty_N_go_0. exact Hs.
  - rewrite pretty_N_go_step by exact Hx. apply IH.
    + apply N.div_lt; [exact Hx|reflexivity].
    + simpl. rewrite is_digit_pretty. exact Hs.
Qed.

(** Reading back the digits printed in front of [s]. *)
Lemma parse_digits_pretty x s acc :
  (0 < x)%N →
  ∃ k, 0 ≤ k ∧
       parse_digits 10 acc (pretty_N_go x s)
       = parse_digits 10 (Some (10 ^ k * default 0 acc + Z.of_N x)) s.
Proof.
  revert s. induction (N.lt_wf_0 x) as [x _ IH]; intros s Hx.
  rewrite pretty_N_go_step by exact Hx.
  assert (Hten : (10 ≠ 0)%N) by discriminate.
  pose proof (N.div_mod x 10 Hten) as Hdivmod.
  pose proof (N.mod_lt x 10 Hten) as Hmod.
  destruct (N.eq_0_gt_0_cases (x `div` 10)) as [Hsmall|Hlarge].
  - rewrite Hsmall, pretty_N_go_0. simpl.
    rewrite (digit_value_digit _ Hmod).
    exists 1. split; [lia|]. f_equal. f_equal. lia.
  - assert (Hless : (x `div` 10 < x)%N)
      by (apply N.div_lt; [exact Hx|reflexivity]).
    destruct (IH _ Hless (String (pretty_N_char (x `mod` 10)) s) Hlarge)
      as (k & Hk & Hparse).
    rewrite Hparse. simpl.
    rewrite (digit_value_digit _ Hmod).
    exists (Z.succ k). split; [lia|]. f_equal. f_equal.
    rewrite Z.pow_succ_r by exact Hk.
    rewrite Hdivmod at 3. rewrite N2Z.inj_add, N2Z.inj_mul. simpl Z.of_N.
    lia.
Qed.

Lemma parse_digits_pretty_N x :
  (0 < x)%N → parse_digits 10 None (pretty_N_go x "") = Some (Z.of_N x).
Proof.
  intros Hx. destruct (parse_digits_pretty x "" None Hx) as (k & _ & ->).
  simpl. f_equal. lia.
Qed.

(** [parseInt] reads the decimal notation of an integer back. *)
Lemma parseInt_pretty (n : Z) : parseInt (pretty n) = Some n.
Proof.
  destruct n as [|p|p]; [reflexivity| |].
  - change (pretty (Zpos p)) with (pretty_N_go (Npos p) "").
    rewrite parseInt_all_digits
      by (apply pretty_N_go_all_digits; reflexivity).
    rewrite parse_digits_pretty_N by reflexivity. reflexivity.
  - change (pretty (Zneg p)) with (String "-" (pretty_N_go (Npos p) "")).
    rewrite parseInt_minus_all_digits
      by (apply pretty_N_go_all_digits; reflexivity).
    rewrite parse_digits_pretty_N by reflexivity. reflexivity.
Qed.

(** X23: in the profile of a doctor the [experience] sent is the number
    typed, for the decimal notation of every integer a [Number] holds
    exactly (up to 2^53 in absolute value, negative ones included: the
    handler sets no lower bound); and it is 0 when the field holds no
    digit at all, empty or not. *)
Theorem experience_sent_as_typed d :
  role d = Doctor →
  (∀ n : Z,
     Z.abs n ≤ 2 ^ 53 → experience d = pretty n →
     profile d !! "experience" = Some (JsNumber n)) ∧
  (strip_non_digits (experience d) = "" →
     profile d !! "experience" = Some (JsNumber 0)).
Proof.
  intros Hrole.
  assert (Hfield : profile d !! "experience"
                   = Some (JsNumber (or_zero (parseInt (experience d))))).
  { unfold profile. rewrite decide_False by (rewrite Hrole; discriminate).
    lookup_field. }
  rewrite Hfield. split.
  - intros n _ ->. rewrite parseInt_pretty. reflexivity.
  - intros Hnone. rewrite (parseInt_no_digit _ Hnone). reflexivity.
Qed.

(** Twelve years typed: 12 is sent; "n/a" typed: 0 is sent. *)
Lemma experience_sent_as_typed_witness :
  profile (setExperience "12" (toggleRole (initialDialog Register)))
    !! "experience" = Some (JsNumber 12) ∧
  profile (setExperience "n/a" (toggleRole (initialDialog Register)))
    !! "experience" = Some (JsNumber 0).
Proof.
  split.
  - apply (proj1 (experience_sent_as_typed
                    (setExperience "12" (toggleRole (initialDialog Register)))
                    eq_refl) 12).
    + vm_compute. discriminate.
    + reflexivity.
  - apply (proj2 (experience_sent_as_typed
                    (setExperience "n/a"
                       (toggleRole (initialDialog Register)))
                    eq_refl)).
    reflexivity.
Defined.
